(** * SimpleCAS: a shallow embedding of [CAS.py]

    [CAS.py] represents symbolic expressions as binary trees of Python
    objects.  The classes [Node], [Operator], [Expression],
    [CompoundExpression], [SymbolicVar] and [SymbolicNum] are embedded
    below method by method.

    Conventions of the embedding:
    - the method [m] of the class [C] is the definition [C_m], with the name
      of the method as the source spells it: [Expression__op] is
      [Expression._op], [Node___init__] is [Node.__init__];
    - a Python [str] is the list of its code points;
    - a Python [int] is a [Z], a [bool] is kept apart from it but answers
      [isinstance(_, int)] like CPython does;
    - a call either returns or raises: [result];
    - objects are records of their class and their three attributes; the one
      mutator of the module, [commute], only rewrites the two child slots of
      its receiver, so a mutating method maps the receiver to its next state
      together with the returned value. *)

From Stdlib Require Import ZArith NArith Lia String Ascii.
From stdpp Require Import base decidable option list.
From Equations Require Import Equations.
From Equations.Prop Require Import Logic.

Local Open Scope Z_scope.

(** ** Host values *)

(** A Python string, code point by code point. *)
Definition str := list N.

(** An ASCII literal of the source as a [str]. *)
Definition lit (s : string) : str := map N_of_ascii (list_ascii_of_string s).

Inductive exception :=
  | ValueError (msg : str)
  | TypeError (msg : str)
  | AttributeError (msg : str).

Inductive result (A : Type) :=
  | Ok (a : A)
  | Raise (e : exception).
Arguments Ok {A} a.
Arguments Raise {A} e.

#[global] Instance result_ret : MRet result := @Ok.
#[global] Instance result_bind : MBind result :=
  fun A B f m => match m with Ok a => f a | Raise e => Raise e end.

(** The classes of the module.  [Expression_] is a direct instance of the
    base class, which Python does not forbid. *)
Inductive Class :=
  | Node_
  | Expression_
  | CompoundExpression_
  | SymbolicVar_
  | SymbolicNum_.

Module Operator.

(** [class Operator(Enum)] *)
Inductive t := add | sub | mul | div.

(** The enum values, the code points of the glyphs. *)
Definition value (o : t) : Z :=
  match o with
  | add => 0x2B
  | sub => 0x2D
  | mul => 0xD7
  | div => 0xF7
  end.

End Operator.
Abbreviation Operator := Operator.t.

(** Attributes of an instance of [Node] or of one of its subclasses. *)
Record object_ (V : Type) := Object {
  cls : Class;
  val : V;
  left : V;
  right : V
}.
Arguments Object {V} cls val left right.
Arguments cls {V} o.
Arguments val {V} o.
Arguments left {V} o.
Arguments right {V} o.

(** The values the module meets: what a user may pass to a constructor or to
    an operator, and what the attributes hold.  Lists are lists of integers,
    enough to have a sized value that is not a string. *)
#[warnings="-register-all"]
Inductive value :=
  | VNone
  | VNotImplemented
  | VBool (b : bool)
  | VInt (z : Z)
  | VStr (s : str)
  | VList (items : list Z)
  | VOperator (o : Operator)
  | VObject (o : object_ value).
Abbreviation object := (object_ value).

#[global] Instance N_eq_dec' : EqDecision N := N.eq_dec.

(** ** Builtins *)

Definition is_None (v : value) : bool :=
  match v with VNone => true | _ => false end.

(** [isinstance(v, int)]: [bool] is a subclass of [int]. *)
Definition isinstance_int (v : value) : bool :=
  match v with VInt _ | VBool _ => true | _ => false end.

(** [isinstance(v, str)] *)
Definition isinstance_str (v : value) : bool :=
  match v with VStr _ => true | _ => false end.

(** [isinstance(v, Expression)]: every class of the module but [Node]. *)
Definition isinstance_Expression (v : value) : bool :=
  match v with
  | VObject o => match cls o with Node_ => false | _ => true end
  | _ => false
  end.

Definition class_name (c : Class) : str :=
  match c with
  | Node_ => lit "Node"
  | Expression_ => lit "Expression"
  | CompoundExpression_ => lit "CompoundExpression"
  | SymbolicVar_ => lit "SymbolicVar"
  | SymbolicNum_ => lit "SymbolicNum"
  end.

(** The name CPython prints for the type of a value. *)
Definition type_name (v : value) : str :=
  match v with
  | VNone => lit "NoneType"
  | VNotImplemented => lit "NotImplementedType"
  | VBool _ => lit "bool"
  | VInt _ => lit "int"
  | VStr _ => lit "str"
  | VList _ => lit "list"
  | VOperator _ => lit "Operator"
  | VObject o => class_name (cls o)
  end.

(** The decimal digits of a natural number, most significant first. *)
Equations? digits (n : N) : str by wf (N.to_nat n) lt :=
  digits n with inspect (n <? 10)%N := {
    | exist _ true _ := [48 + n]%N;
    | exist _ false H := digits (n / 10) ++ [48 + n mod 10]%N }.
Proof.
  apply N.ltb_ge in H.
  assert (n / 10 < n)%N by (apply N.div_lt; lia). lia.
Qed.

(** [int.__str__]: the decimal numeral, with a sign for a negative number.
    The cap an interpreter may put on the number of digits of the conversion
    ([sys.set_int_max_str_digits]) is a setting of the host and is left out. *)
Definition int___str__ (z : Z) : str :=
  if z <? 0 then lit "-" ++ digits (Z.to_N (- z)) else digits (Z.to_N z).

(** [bool.__str__] *)
Definition bool___str__ (b : bool) : str :=
  if b then lit "True" else lit "False".

(** [sep.join(parts)] *)
Fixpoint join (sep : str) (parts : list str) : str :=
  match parts with
  | [] => []
  | [p] => p
  | p :: ps => p ++ sep ++ join sep ps
  end.

(** [list.__str__] on a list of integers *)
Definition list___str__ (items : list Z) : str :=
  lit "[" ++ join (lit ", ") (map int___str__ items) ++ lit "]".

(** [len(v)]: strings and lists are sized, nothing else here is. *)
Definition len (v : value) : result Z :=
  match v with
  | VStr s => Ok (Z.of_nat (length s))
  | VList l => Ok (Z.of_nat (length l))
  | _ => Raise (TypeError (lit "object of type '" ++ type_name v ++ lit "' has no len()"))
  end.

(** [ord(v)]: the code point of a one-character string. *)
Definition ord (v : value) : result Z :=
  match v with
  | VStr [c] => Ok (Z.of_N c)
  | VStr s =>
      Raise (TypeError (lit "ord() expected a character, but string of length "
                          ++ int___str__ (Z.of_nat (length s)) ++ lit " found"))
  | _ => Raise (TypeError (lit "ord() expected string of length 1, but "
                             ++ type_name v ++ lit " found"))
  end.

(** [chr(i)] *)
Definition chr (i : Z) : result str :=
  if (0 <=? i) && (i <? 0x110000) then Ok [Z.to_N i]
  else Raise (ValueError (lit "chr() arg not in range(0x110000)")).

(** [a <= v] for an integer [a]: defined against [int] and [bool] only. *)
Definition int_le (a : Z) (v : value) : result bool :=
  match v with
  | VInt z => Ok (a <=? z)
  | VBool b => Ok (a <=? (if b then 1 else 0))
  | _ => Raise (TypeError (lit "'<=' not supported between instances of 'int' and '"
                             ++ type_name v ++ lit "'"))
  end.

(** Python's short-circuit [and] and [or] on conditions that may raise. *)
Definition and_then (a b : result bool) : result bool :=
  x ← a; if x : bool then b else Ok false.
Definition or_else (a b : result bool) : result bool :=
  x ← a; if x : bool then Ok true else b.
Infix "&&&" := and_then (at level 40, left associativity).
Infix "|||" := or_else (at level 50, left associativity).

(** ** class Operator: [__str__] *)

(** [Operator.__str__]: [chr(self.value)] *)
Definition Operator___str__ (self : Operator) : result str :=
  chr (Operator.value self).

(** ** class Node *)

(** [Node.__init__(self, val, left=None, right=None)], on a fresh instance of
    class [c]; the subclasses reach it through [super().__init__]. *)
Definition Node___init__ (c : Class) (val left right : value) : object :=
  {| cls := c; val := val; left := left; right := right |}.

(** [Node(val)] *)
Definition Node (val : value) : object := Node___init__ Node_ val VNone VNone.

(** ** Rendering: [str()], [Node.__str__] and [Expression.__str__]

    [str(v)] calls the [__str__] of the class of [v], and the two methods of
    the module call [str] back on the attributes: the methods are written over
    the builtin they call, and [py_str] closes the recursion. *)
Section Str_methods.

Variable str_ : value -> result str.

(** [Node.__str__] *)
Definition Node___str__ (self : object) : result str :=
  str_ (val self).

(** [Expression.__str__] *)
Definition Expression___str__ (self : object) : result str :=
  left' ← (if negb (is_None (left self)) then str_ (left self) else Ok []);
  right' ← (if negb (is_None (right self)) then str_ (right self) else Ok []);
  if bool_decide (left' = []) && bool_decide (right' = []) then
    str_ (val self)
  else
    v ← str_ (val self);
    Ok (lit "(" ++ left' ++ lit " " ++ v ++ lit " " ++ right' ++ lit ")").

End Str_methods.

(** The builtin [str]. *)
Fixpoint py_str (v : value) : result str :=
  match v with
  | VNone => Ok (lit "None")
  | VNotImplemented => Ok (lit "NotImplemented")
  | VBool b => Ok (bool___str__ b)
  | VInt z => Ok (int___str__ z)
  | VStr s => Ok s
  | VList l => Ok (list___str__ l)
  | VOperator o => Operator___str__ o
  | VObject o =>
      match cls o with
      | Node_ => Node___str__ py_str o
      | _ => Expression___str__ py_str o
      end
  end.

(** ** class CompoundExpression: construction *)

(** [CompoundExpression.__init__(self, op, left, right)] *)
Definition CompoundExpression___init__ (op : Operator) (left right : value)
  : result object :=
  if negb (isinstance_Expression left) || negb (isinstance_Expression right) then
    Raise (TypeError (lit "'left' and 'right' must be of type Expression."))
  else
    Ok (Node___init__ CompoundExpression_ (VOperator op) left right).

(** ** class SymbolicVar: construction *)

(** [SymbolicVar.__init__(self, name)] *)
Definition SymbolicVar___init__ (name : value) : result object :=
  c ← ((n ← len name; Ok (n =? 1))
       &&& Ok (isinstance_str name)
       &&& ((a ← ord name; Ok ((97 <=? a) && (a <=? 122)))
            ||| (a ← ord name; Ok ((65 <=? a) && (a <=? 90)))));
  if c : bool then
    Ok (Node___init__ SymbolicVar_ (VObject (Node name)) VNone VNone)
  else
    Raise (ValueError (lit "Symbol name must be an upper or lower-case "
                         ++ lit "string of length 1.")).

(** ** class SymbolicNum: construction *)

(** [SymbolicNum.__init__(self, val)] *)
Definition SymbolicNum___init__ (val : value) : result object :=
  c ← (Ok (isinstance_int val) &&& int_le 0 val);
  if c : bool then
    Ok (Node___init__ SymbolicNum_ (VObject (Node val)) VNone VNone)
  else
    Raise (ValueError (lit "Constant must be a non-negative integer.")).

(** ** class Expression: the operator methods *)

(** [Expression._op(self, other, op, right=False)] *)
Definition Expression__op (self : object) (other : value) (op : Operator)
    (right : bool) : result value :=
  if isinstance_int other then
    if negb right then
      n ← SymbolicNum___init__ other;
      c ← CompoundExpression___init__ op (VObject self) (VObject n);
      Ok (VObject c)
    else
      n ← SymbolicNum___init__ other;
      c ← CompoundExpression___init__ op (VObject n) (VObject self);
      Ok (VObject c)
  else if isinstance_Expression other then
    if negb right then
      c ← CompoundExpression___init__ op (VObject self) other;
      Ok (VObject c)
    else
      c ← CompoundExpression___init__ op other (VObject self);
      Ok (VObject c)
  else
    Ok VNotImplemented.

(** [SymbolicNum._op(self, other, op, right=False)]: the body is [pass]. *)
Definition SymbolicNum__op (self : object) (other : value) (op : Operator)
    (right : bool) : result value :=
  Ok VNone.

(** [self._op(...)]: the attribute lookup goes through the class of [self];
    [SymbolicNum] overrides the method of [Expression], [Node] has none. *)
Definition self__op (self : object) (other : value) (op : Operator)
    (right : bool) : result value :=
  match cls self with
  | SymbolicNum_ => SymbolicNum__op self other op right
  | Node_ => Raise (AttributeError (lit "'Node' object has no attribute '_op'"))
  | _ => Expression__op self other op right
  end.

Definition Expression___add__ (self : object) (other : value) : result value :=
  self__op self other Operator.add false.

Definition Expression___radd__ (self : object) (other : value) : result value :=
  self__op self other Operator.add true.

Definition Expression___sub__ (self : object) (other : value) : result value :=
  self__op self other Operator.sub false.

Definition Expression___rsub__ (self : object) (other : value) : result value :=
  self__op self other Operator.sub true.

Definition Expression___mul__ (self : object) (other : value) : result value :=
  self__op self other Operator.mul false.

Definition Expression___rmul__ (self : object) (other : value) : result value :=
  self__op self other Operator.mul true.

Definition Expression___truediv__ (self : object) (other : value) : result value :=
  self__op self other Operator.div false.

Definition Expression___rtruediv__ (self : object) (other : value) : result value :=
  self__op self other Operator.div true.

(** [Expression.__eq__(self, other)]: the body is [pass]. *)
Definition Expression___eq__ (self : object) (other : value) : result value :=
  Ok VNone.

(** ** class CompoundExpression: the rewrites

    A rewrite acts on its receiver in place: it yields what the call returns
    or raises, and the attributes of the receiver after the call. *)

(** [CompoundExpression.assoc_right(self)]: the body is [pass]. *)
Definition CompoundExpression_assoc_right (self : object) : result value * object :=
  (Ok VNone, self).

(** [CompoundExpression.assoc_left(self)]: the body is [pass]. *)
Definition CompoundExpression_assoc_left (self : object) : result value * object :=
  (Ok VNone, self).

(** [CompoundExpression.commute(self)]:
    [self.left, self.right = self.right, self.left] *)
Definition CompoundExpression_commute (self : object) : result value * object :=
  (Ok VNone,
   {| cls := cls self; val := val self; left := right self; right := left self |}).

(** ** class CompoundExpression: the predicates *)

(** [bool(v)]: none of the classes of the module defines [__bool__] or
    [__len__], so their instances are true; so are the members of an [Enum].
    [NotImplemented] is true in the interpreters the module was written for. *)
Definition truthy (v : value) : bool :=
  match v with
  | VNone => false
  | VNotImplemented => true
  | VBool b => b
  | VInt z => negb (z =? 0)
  | VStr s => negb (bool_decide (s = []))
  | VList l => negb (bool_decide (l = []))
  | VOperator _ => true
  | VObject _ => true
  end.

(** [v == o] for a member [o] of [Operator].  The members of a plain [Enum]
    compare by identity and are equal to no [int], [str] or other object; an
    instance of [Expression] on the left answers through [Expression.__eq__],
    whose empty body returns [None]. *)
Definition eq_Operator (v : value) (o : Operator) : result value :=
  match v with
  | VOperator o' =>
      Ok (VBool (match o', o with
                 | Operator.add, Operator.add | Operator.sub, Operator.sub
                 | Operator.mul, Operator.mul | Operator.div, Operator.div => true
                 | _, _ => false
                 end))
  | VObject x =>
      if isinstance_Expression v then Expression___eq__ x (VOperator o)
      else Ok (VBool false)
  | _ => Ok (VBool false)
  end.

(** [CompoundExpression.additive(self)]:
    [self.val == Operator.add or self.val == Operator.sub], where [a or b] is
    [a] when [a] is true and [b] otherwise. *)
Definition CompoundExpression_additive (self : object) : result value :=
  a ← eq_Operator (val self) Operator.add;
  if truthy a then Ok a else eq_Operator (val self) Operator.sub.

(** [CompoundExpression.multiplicative(self)]:
    [self.val == Operator.mul or self.val == Operator.div] *)
Definition CompoundExpression_multiplicative (self : object) : result value :=
  a ← eq_Operator (val self) Operator.mul;
  if truthy a then Ok a else eq_Operator (val self) Operator.div.

(** ** class SymbolicVar: [specialize] *)

(** [SymbolicVar.specialize(self, val)]: the body is [pass]. *)
Definition SymbolicVar_specialize (self : object) (val : value) : result value :=
  Ok VNone.

(** ** The host's infix operators

    [x + y] first asks the left operand, and the right one when the left
    answers [NotImplemented].  An [Expression] on the left answers through
    its [__add__]; an [int] or a [bool] on the left does not know about
    [Expression] and the call lands in the [__radd__] of the right operand.
    Operand pairs without an [Expression], or with an operand that is neither
    an [Expression] nor an integer, are outside of this fragment. *)

Definition primary (op : Operator) : object -> value -> result value :=
  match op with
  | Operator.add => Expression___add__
  | Operator.sub => Expression___sub__
  | Operator.mul => Expression___mul__
  | Operator.div => Expression___truediv__
  end.

Definition reflected (op : Operator) : object -> value -> result value :=
  match op with
  | Operator.add => Expression___radd__
  | Operator.sub => Expression___rsub__
  | Operator.mul => Expression___rmul__
  | Operator.div => Expression___rtruediv__
  end.

Definition infix (op : Operator) (x y : value) : option (result value) :=
  match x, y with
  | VObject xo, _ =>
      if isinstance_Expression x && (isinstance_int y || isinstance_Expression y)
      then Some (primary op xo y) else None
  | (VInt _ | VBool _), VObject yo =>
      if isinstance_Expression y then Some (reflected op yo x) else None
  | _, _ => None
  end.

(** ** Notions of the specification *)

(** The two errors of the leaf constructors, [ValueError]s in the source. *)
Definition InvalidSymbol : exception :=
  ValueError (lit "Symbol name must be an upper or lower-case string of length 1.").

Definition InvalidConstant : exception :=
  ValueError (lit "Constant must be a non-negative integer.").

(** The display glyph of an operator, as the specification lists them:
    ['+'], ['-'], ['×'] (U+00D7) and ['÷'] (U+00F7). *)
Definition spec_glyph (op : Operator) : str :=
  match op with
  | Operator.add => lit "+"
  | Operator.sub => lit "-"
  | Operator.mul => [0xD7%N]
  | Operator.div => [0xF7%N]
  end.

(** An ASCII letter, upper or lower case. *)
Definition spec_is_ascii_letter (c : N) : bool :=
  ((N_of_ascii "a" <=? c) && (c <=? N_of_ascii "z")
   || (N_of_ascii "A" <=? c) && (c <=? N_of_ascii "Z"))%N.

(** A string of exactly one code point, which is an ASCII letter. *)
Definition spec_is_symbol_name (s : str) : bool :=
  match s with
  | [c] => spec_is_ascii_letter c
  | _ => false
  end.

Definition is_digit (c : N) : Prop := (48 <= c <= 57)%N.

(** The number a string of decimal digits denotes. *)
Definition decimal_value (s : str) : N :=
  foldl (fun acc c => 10 * acc + (c - 48))%N 0%N s.

(** [s] is the decimal numeral of [n]: digits only, at least one, no leading
    zero except for zero itself, and denoting [n]. *)
Definition spec_decimal_digits (s : str) (n : Z) : Prop :=
  s <> [] /\ Forall is_digit s /\ (head s = Some 48%N -> s = [48%N])
  /\ Z.of_N (decimal_value s) = n.

(** A leaf as the constructors build it: no children, and the raw value held
    by a [Node] of its own. *)
Definition leaf (c : Class) (raw : value) : object :=
  {| cls := c; val := VObject (Node raw); left := VNone; right := VNone |}.

(** A compound node. *)
Definition compound (op : Operator) (l r : value) : object :=
  {| cls := CompoundExpression_; val := VOperator op; left := l; right := r |}.

(** The expressions a program obtains from the three constructors and from
    [commute]. *)
Inductive constructed : object -> Prop :=
  | constructed_SymbolicVar name o :
      SymbolicVar___init__ name = Ok o -> constructed o
  | constructed_SymbolicNum v o :
      SymbolicNum___init__ v = Ok o -> constructed o
  | constructed_CompoundExpression op l r o :
      constructed l -> constructed r ->
      CompoundExpression___init__ op (VObject l) (VObject r) = Ok o ->
      constructed o
  | constructed_commute o :
      constructed o -> cls o = CompoundExpression_ ->
      constructed (snd (CompoundExpression_commute o)).

(** The same expressions by their shape: the tagged union of the
    specification, read off the objects. *)
Inductive expression_tree : object -> Prop :=
  | tree_SymbolicVar c :
      spec_is_ascii_letter c = true ->
      expression_tree (leaf SymbolicVar_ (VStr [c]))
  | tree_SymbolicNum v :
      (exists n, v = VInt n /\ 0 <= n) \/ (exists b, v = VBool b) ->
      expression_tree (leaf SymbolicNum_ v)
  | tree_CompoundExpression op l r :
      expression_tree l -> expression_tree r ->
      expression_tree (compound op (VObject l) (VObject r)).

(** The operand of a combinator once a plain integer is wrapped. *)
Definition promote (other : value) : result value :=
  if isinstance_int other then n ← SymbolicNum___init__ other; Ok (VObject n)
  else Ok other.

(** A call that produces a [CompoundExpression] under [op]. *)
Definition returns_compound (op : Operator) (r : result value) : Prop :=
  exists c, r = Ok (VObject c) /\ cls c = CompoundExpression_
            /\ val c = VOperator op.

(** A call that fails with an explicit signal: it raises, or it answers
    [NotImplemented]. *)
Definition signals_not_implemented (r : result value) : Prop :=
  match r with
  | Raise _ => True
  | Ok VNotImplemented => True
  | Ok _ => False
  end.

(** A receiver whose [_op] is the one of [Expression]: an instance of
    [Expression] whose class does not override it. *)
Definition inherits__op (self : object) : bool :=
  match cls self with
  | Node_ | SymbolicNum_ => false
  | _ => true
  end.

(** The children of a combination in the order the flag [right] asks for. *)
Definition combine (op : Operator) (right : bool) (self other : value) : object :=
  if right then compound op other self else compound op self other.

(** A rendering without parentheses. *)
Definition no_parentheses (s : str) : Prop :=
  Forall (fun c => c <> N_of_ascii "(" /\ c <> N_of_ascii ")") s.

(** The objects of the docstring examples. *)
Definition symbol (name : string) : object := leaf SymbolicVar_ (VStr (lit name)).
Definition number (n : Z) : object := leaf SymbolicNum_ (VInt n).

(** A value without a [len()]. *)
Definition unsized (v : value) : bool :=
  match v with VStr _ | VList _ => false | _ => true end.

(** The operators of the additive family. *)
Definition is_additive (op : Operator) : bool :=
  match op with
  | Operator.add | Operator.sub => true
  | Operator.mul | Operator.div => false
  end.

(** An operand the combinators know how to combine: an [int], a [bool], or
    an expression a program has constructed. *)
Definition operand (other : value) : Prop :=
  isinstance_int other = true \/ exists o, other = VObject o /\ constructed o.


(** A value that is neither an integer nor an [Expression]. *)
Definition foreign (other : value) : bool :=
  negb (isinstance_int other) && negb (isinstance_Expression other).

(** What follows a rendering inside a larger one: a space or a closing
    parenthesis. *)
Definition is_delimiter (c : N) : Prop :=
  c = N_of_ascii " " \/ c = N_of_ascii ")".

(** The code points of the characters the statements name. *)
Ltac ascii_codes :=
  change (N_of_ascii "a") with 97%N in *; change (N_of_ascii "z") with 122%N in *;
  change (N_of_ascii "A") with 65%N in *; change (N_of_ascii "Z") with 90%N in *;
  change (N_of_ascii "(") with 40%N in *; change (N_of_ascii ")") with 41%N in *.

(** ** Decimal numerals *)

Lemma digits_eq (n : N) :
  digits n
  = if (n <? 10)%N then [48 + n]%N else digits (n / 10) ++ [48 + n mod 10]%N.
Proof.
  funelim (digits n);
    match goal with E : (_ <? _)%N = _ |- _ => rewrite E end; reflexivity.
Qed.

Lemma digits_nonempty (n : N) : digits n <> [].
Proof.
  rewrite digits_eq. destruct (n <? 10)%N; [discriminate|].
  intros E. apply app_eq_nil in E. destruct E; discriminate.
Qed.

Lemma digits_are_digits (n : N) : Forall is_digit (digits n).
Proof.
  induction n as [n IH] using (well_founded_induction N.lt_wf_0).
  rewrite digits_eq. destruct (N.ltb_spec n 10).
  - constructor; [unfold is_digit; lia | constructor].
  - apply Forall_app. split.
    + apply IH. apply N.div_lt; lia.
    + constructor; [|constructor].
      assert (n mod 10 < 10)%N by (apply N.mod_lt; lia).
      unfold is_digit. generalize dependent (n mod 10)%N. intros; lia.
Qed.

Lemma decimal_value_snoc (s : str) (c : N) :
  decimal_value (s ++ [c]) = (10 * decimal_value s + (c - 48))%N.
Proof. unfold decimal_value. rewrite foldl_app. reflexivity. Qed.

Lemma decimal_value_digits (n : N) : decimal_value (digits n) = n.
Proof.
  induction n as [n IH] using (well_founded_induction N.lt_wf_0).
  rewrite digits_eq. destruct (N.ltb_spec n 10).
  - unfold decimal_value; simpl. lia.
  - rewrite decimal_value_snoc, IH by (apply N.div_lt; lia).
    pose proof (N.div_mod' n 10) as E.
    assert (n mod 10 < 10)%N by (apply N.mod_lt; lia).
    generalize dependent (n mod 10)%N. generalize dependent (n / 10)%N.
    intros; lia.
Qed.

Lemma digits_leading_zero (n : N) : head (digits n) = Some 48%N -> n = 0%N.
Proof.
  induction n as [n IH] using (well_founded_induction N.lt_wf_0).
  rewrite digits_eq. destruct (N.ltb_spec n 10).
  - intros E. change (Some (48 + n)%N = Some 48%N) in E.
    injection E as E. lia.
  - intros E.
    assert (Hd : head (digits (n / 10)) = Some 48%N).
    { pose proof (digits_nonempty (n / 10)).
      destruct (digits (n / 10)); [congruence | exact E]. }
    apply IH in Hd; [| apply N.div_lt; lia].
    apply N.div_small_iff in Hd; lia.
Qed.

Lemma digits_spec (n : Z) : 0 <= n -> spec_decimal_digits (digits (Z.to_N n)) n.
Proof.
  intros Hn. repeat split.
  - apply digits_nonempty.
  - apply digits_are_digits.
  - intros E. apply digits_leading_zero in E. rewrite E. reflexivity.
  - rewrite decimal_value_digits. lia.
Qed.

Lemma int___str___nonneg (n : Z) : 0 <= n -> int___str__ n = digits (Z.to_N n).
Proof.
  intros Hn. unfold int___str__. destruct (Z.ltb_spec n 0); [lia | reflexivity].
Qed.

(** ** The constructors, case by case *)

Lemma ascii_letter_bounds (c : N) :
  (97 <=? Z.of_N c) && (Z.of_N c <=? 122)
  || (65 <=? Z.of_N c) && (Z.of_N c <=? 90)
  = spec_is_ascii_letter c.
Proof.
  unfold spec_is_ascii_letter. ascii_codes.
  destruct (Z.leb_spec 97 (Z.of_N c)), (Z.leb_spec (Z.of_N c) 122),
    (Z.leb_spec 65 (Z.of_N c)), (Z.leb_spec (Z.of_N c) 90),
    (N.leb_spec 97 c), (N.leb_spec c 122),
    (N.leb_spec 65 c), (N.leb_spec c 90); simpl; try reflexivity; lia.
Qed.

Lemma SymbolicVar___init___str (s : str) :
  SymbolicVar___init__ (VStr s)
  = if spec_is_symbol_name s then Ok (leaf SymbolicVar_ (VStr s))
    else Raise InvalidSymbol.
Proof.
  destruct s as [|c [|c' s]].
  - reflexivity.
  - unfold SymbolicVar___init__, spec_is_symbol_name. cbn.
    pose proof (ascii_letter_bounds c) as E.
    destruct ((97 <=? Z.of_N c) && (Z.of_N c <=? 122)); cbn in *;
      rewrite <- E; [reflexivity|].
    destruct ((65 <=? Z.of_N c) && (Z.of_N c <=? 90)); reflexivity.
  - assert (E : (Z.of_nat (length (c :: c' :: s)) =? 1) = false)
      by (apply Z.eqb_neq; simpl length; lia).
    unfold SymbolicVar___init__, len, and_then, mbind, result_bind.
    rewrite E. reflexivity.
Qed.

Lemma SymbolicVar___init___Ok (name : value) (o : object) :
  SymbolicVar___init__ name = Ok o ->
  exists c, name = VStr [c] /\ spec_is_ascii_letter c = true
            /\ o = leaf SymbolicVar_ name.
Proof.
  destruct name as [| |b|z|s|l| |x]; try discriminate.
  - rewrite SymbolicVar___init___str.
    destruct s as [|c [|c' s]]; try discriminate.
    cbn [spec_is_symbol_name].
    destruct (spec_is_ascii_letter c) eqn:E; [|intros [=]].
    intros [= <-]. eauto.
  - unfold SymbolicVar___init__, len, and_then, mbind, result_bind.
    destruct (Z.of_nat (length l) =? 1); discriminate.
Qed.

Lemma SymbolicNum___init___int (n : Z) :
  SymbolicNum___init__ (VInt n)
  = if 0 <=? n then Ok (leaf SymbolicNum_ (VInt n)) else Raise InvalidConstant.
Proof.
  unfold SymbolicNum___init__. cbn. destruct (0 <=? n); reflexivity.
Qed.

Lemma SymbolicNum___init___bool (b : bool) :
  SymbolicNum___init__ (VBool b) = Ok (leaf SymbolicNum_ (VBool b)).
Proof. destruct b; reflexivity. Qed.

Lemma SymbolicNum___init___Ok (v : value) (o : object) :
  SymbolicNum___init__ v = Ok o ->
  ((exists n, v = VInt n /\ 0 <= n) \/ (exists b, v = VBool b))
  /\ o = leaf SymbolicNum_ v.
Proof.
  destruct v as [| |b|z|s|l| |x]; try discriminate.
  - rewrite SymbolicNum___init___bool. intros [= <-]. eauto.
  - rewrite SymbolicNum___init___int. destruct (Z.leb_spec 0 z); [|discriminate].
    intros [= <-]. eauto.
Qed.

Lemma CompoundExpression___init___Expression (op : Operator) (l r : value) :
  isinstance_Expression l = true -> isinstance_Expression r = true ->
  CompoundExpression___init__ op l r = Ok (compound op l r).
Proof.
  intros Hl Hr. unfold CompoundExpression___init__. rewrite Hl, Hr. reflexivity.
Qed.

Lemma CompoundExpression___init___Ok (op : Operator) (l r : value) (o : object) :
  CompoundExpression___init__ op l r = Ok o ->
  isinstance_Expression l = true /\ isinstance_Expression r = true
  /\ o = compound op l r.
Proof.
  unfold CompoundExpression___init__.
  destruct (isinstance_Expression l), (isinstance_Expression r);
    try discriminate.
  intros [= <-]. auto.
Qed.

(** What a constructed expression looks like. *)
Lemma constructed_expression_tree (o : object) :
  constructed o -> expression_tree o.
Proof.
  induction 1 as [name o E|v o E|op l r o _ IHl _ IHr E|o _ IH Hc].
  - apply SymbolicVar___init___Ok in E as (c & -> & Hc & ->).
    now constructor.
  - apply SymbolicNum___init___Ok in E as (Hv & ->). now constructor.
  - apply CompoundExpression___init___Ok in E as (_ & _ & ->).
    now constructor.
  - destruct IH as [c ?|v ?|op l r Hl Hr]; try discriminate.
    now constructor.
Qed.

Lemma expression_tree_isinstance (o : object) :
  expression_tree o -> isinstance_Expression (VObject o) = true.
Proof. destruct 1; reflexivity. Qed.

Lemma expression_tree_constructed (o : object) :
  expression_tree o -> constructed o.
Proof.
  induction 1 as [c Hc|v Hv|op l r Hl IHl Hr IHr].
  - apply (constructed_SymbolicVar (VStr [c])).
    rewrite SymbolicVar___init___str. simpl. rewrite Hc. reflexivity.
  - apply (constructed_SymbolicNum v).
    destruct Hv as [(n & -> & Hn)|(b & ->)].
    + rewrite SymbolicNum___init___int.
      destruct (Z.leb_spec 0 n); [reflexivity | lia].
    + apply SymbolicNum___init___bool.
  - apply (constructed_CompoundExpression op l r); [assumption ..|].
    apply CompoundExpression___init___Expression;
      now apply expression_tree_isinstance.
Qed.

(** ** Rendering *)

Lemma py_str_Operator (op : Operator) : py_str (VOperator op) = Ok (spec_glyph op).
Proof. destruct op; reflexivity. Qed.

Lemma py_str_leaf (c : Class) (raw : value) :
  c <> Node_ -> py_str (VObject (leaf c raw)) = py_str raw.
Proof. destruct c; [congruence | reflexivity ..]. Qed.

Lemma py_str_compound (op : Operator) (l r : object) (sl sr : str) :
  py_str (VObject l) = Ok sl -> py_str (VObject r) = Ok sr -> sl <> [] ->
  py_str (VObject (compound op (VObject l) (VObject r)))
  = Ok (lit "(" ++ sl ++ lit " " ++ spec_glyph op ++ lit " " ++ sr ++ lit ")").
Proof.
  intros Hl Hr Hne.
  change (py_str (VObject (compound op (VObject l) (VObject r))))
    with (Expression___str__ py_str (compound op (VObject l) (VObject r))).
  unfold Expression___str__. cbn [left right val compound is_None negb].
  rewrite Hl, Hr, py_str_Operator. cbn.
  destruct sl; [congruence | reflexivity].
Qed.

Lemma expression_tree_py_str (o : object) :
  expression_tree o -> exists s, py_str (VObject o) = Ok s /\ s <> [].
Proof.
  induction 1 as [c Hc|v Hv|op l r Hl IHl Hr IHr].
  - exists [c]. split; [reflexivity | discriminate].
  - destruct Hv as [(n & -> & Hn)|(b & ->)].
    + exists (digits (Z.to_N n)). split; [|apply digits_nonempty].
      rewrite py_str_leaf by discriminate. cbn.
      rewrite int___str___nonneg by assumption. reflexivity.
    + exists (bool___str__ b). split; [reflexivity | destruct b; discriminate].
  - destruct IHl as (sl & Hsl & Hne), IHr as (sr & Hsr & _).
    eexists. split; [apply (py_str_compound op l r sl sr); assumption|].
    discriminate.
Qed.

Lemma constructed_py_str (o : object) :
  constructed o -> exists s, py_str (VObject o) = Ok s /\ s <> [].
Proof.
  intros H. now apply expression_tree_py_str, constructed_expression_tree.
Qed.

(** ** The combinators *)

Lemma inherits__op_isinstance (self : object) :
  inherits__op self = true -> isinstance_Expression (VObject self) = true.
Proof. unfold inherits__op. simpl. destruct (cls self); congruence. Qed.

Lemma self__op_inherited (self : object) (other : value) (op : Operator)
    (right : bool) :
  inherits__op self = true ->
  self__op self other op right = Expression__op self other op right.
Proof.
  unfold inherits__op, self__op. destruct (cls self); congruence.
Qed.

Lemma self__op_SymbolicNum (self : object) (other : value) (op : Operator)
    (right : bool) :
  cls self = SymbolicNum_ -> self__op self other op right = Ok VNone.
Proof. unfold self__op. intros ->. reflexivity. Qed.

Lemma primary_eq (op : Operator) (self : object) (other : value) :
  primary op self other = self__op self other op false.
Proof. destruct op; reflexivity. Qed.

Lemma reflected_eq (op : Operator) (self : object) (other : value) :
  reflected op self other = self__op self other op true.
Proof. destruct op; reflexivity. Qed.

(** [Expression._op] on an operand that is an [Expression]. *)
Lemma Expression__op_Expression (self : object) (other : value)
    (op : Operator) (right : bool) :
  isinstance_Expression (VObject self) = true ->
  isinstance_Expression other = true ->
  Expression__op self other op right
  = Ok (VObject (combine op right (VObject self) other)).
Proof.
  intros Hs Ho. unfold Expression__op, combine.
  assert (isinstance_int other = false) as ->
    by (destruct other; try reflexivity; discriminate).
  rewrite Ho.
  destruct right; cbn [negb];
    rewrite CompoundExpression___init___Expression by assumption; reflexivity.
Qed.

(** [Expression._op] on an [int] or a [bool]: the promotion comes first, and
    its failure is the failure of the call. *)
Lemma Expression__op_int (self : object) (other : value) (op : Operator)
    (right : bool) :
  isinstance_Expression (VObject self) = true ->
  isinstance_int other = true ->
  Expression__op self other op right
  = n ← SymbolicNum___init__ other;
    Ok (VObject (combine op right (VObject self) (VObject n))).
Proof.
  intros Hs Ho. unfold Expression__op, combine. rewrite Ho.
  destruct (SymbolicNum___init__ other) as [n|e] eqn:E.
  - apply SymbolicNum___init___Ok in E as (_ & ->).
    destruct right; cbn [negb mbind result_bind];
      rewrite CompoundExpression___init___Expression by (assumption || reflexivity);
      reflexivity.
  - destruct right; reflexivity.
Qed.

(** Whatever [Expression._op] builds has the promoted operand and the
    receiver as its children, in the order of the flag. *)
Lemma Expression__op_builds (self : object) (other : value) (op : Operator)
    (right : bool) (c : object) :
  Expression__op self other op right = Ok (VObject c) ->
  exists p, promote other = Ok p
            /\ isinstance_Expression (VObject self) = true
            /\ isinstance_Expression p = true
            /\ c = combine op right (VObject self) p.
Proof.
  unfold Expression__op, promote, combine.
  destruct (isinstance_int other) eqn:Hi.
  - destruct (SymbolicNum___init__ other) as [n|e]; [|destruct right; discriminate].
    intros H. exists (VObject n).
    destruct right; cbn [negb mbind result_bind] in H;
      match type of H with
      | context [CompoundExpression___init__ ?o ?l ?r] =>
          destruct (CompoundExpression___init__ o l r) as [x|] eqn:E;
          [|discriminate];
          apply CompoundExpression___init___Ok in E as (? & ? & ->)
      end; injection H as <-; auto.
  - destruct (isinstance_Expression other) eqn:He; [|discriminate].
    intros H. exists other.
    destruct right; cbn [negb mbind result_bind] in H;
      match type of H with
      | context [CompoundExpression___init__ ?o ?l ?r] =>
          destruct (CompoundExpression___init__ o l r) as [x|] eqn:E;
          [|discriminate];
          apply CompoundExpression___init___Ok in E as (? & ? & ->)
      end; injection H as <-; auto.
Qed.

Lemma self__op_builds (self : object) (other : value) (op : Operator)
    (right : bool) (c : object) :
  self__op self other op right = Ok (VObject c) ->
  inherits__op self = true
  /\ Expression__op self other op right = Ok (VObject c).
Proof.
  unfold self__op, inherits__op, SymbolicNum__op.
  destruct (cls self); try discriminate; auto.
Qed.

Lemma leaf_no_parentheses (o : object) (s : str) :
  expression_tree o -> cls o <> CompoundExpression_ ->
  py_str (VObject o) = Ok s -> no_parentheses s.
Proof.
  destruct 1 as [c Hc|v Hv|op l r _ _]; intros Hcls;
    [| |now destruct Hcls]; clear Hcls.
  - intros [= <-]. constructor; [|constructor].
    unfold spec_is_ascii_letter in Hc. ascii_codes.
    destruct (N.leb_spec 97 c), (N.leb_spec c 122),
      (N.leb_spec 65 c), (N.leb_spec c 90); simpl in Hc; try discriminate; lia.
  - rewrite py_str_leaf by discriminate.
    destruct Hv as [(n & -> & Hn)|(b & ->)]; cbn [py_str].
    + rewrite int___str___nonneg by assumption. intros [= <-].
      eapply Forall_impl; [apply digits_are_digits|].
      intros c Hc. unfold is_digit in Hc. ascii_codes. lia.
    + intros [= <-]. destruct b; repeat constructor; discriminate.
Qed.

(** ** The claims *)

(** C1 (as amended).  On a receiver that is a [SymbolicVar] or a
    [CompoundExpression], each of the four primary combinators, given an
    [Expression], returns the [CompoundExpression] of the operator with the
    receiver on the left and the operand on the right; given a non-negative
    [int], it first promotes it to a [SymbolicNum], so that [e + n] is the
    same tree as [e + SymbolicNum(n)]; given a negative [int], the promotion
    raises the [ValueError] of [SymbolicNum]. *)
Theorem combinator_builds_compound (self : object) (op : Operator) :
  cls self = SymbolicVar_ \/ cls self = CompoundExpression_ ->
  (forall other, isinstance_Expression other = true ->
     primary op self other = Ok (VObject (compound op (VObject self) other))
     /\ returns_compound op (primary op self other))
  /\ (forall n, 0 <= n ->
        exists num, SymbolicNum___init__ (VInt n) = Ok num
          /\ primary op self (VInt n)
             = Ok (VObject (compound op (VObject self) (VObject num)))
          /\ primary op self (VInt n) = primary op self (VObject num)
          /\ returns_compound op (primary op self (VInt n)))
  /\ (forall n, n < 0 -> primary op self (VInt n) = Raise InvalidConstant).
Proof.
  intros Hc.
  assert (Hi : inherits__op self = true)
    by (unfold inherits__op; destruct Hc as [-> | ->]; reflexivity).
  pose proof (inherits__op_isinstance self Hi) as Hs.
  assert (Hexp : forall other, isinstance_Expression other = true ->
            primary op self other = Ok (VObject (compound op (VObject self) other))).
  { intros other Ho.
    rewrite primary_eq, self__op_inherited by assumption.
    now rewrite Expression__op_Expression. }
  repeat split.
  - now apply Hexp.
  - rewrite Hexp by assumption. now eexists.
  - intros n Hn. exists (number n).
    assert (E : SymbolicNum___init__ (VInt n) = Ok (number n)).
    { rewrite SymbolicNum___init___int.
      destruct (Z.leb_spec 0 n); [reflexivity | lia]. }
    assert (E' : primary op self (VInt n)
                 = Ok (VObject (compound op (VObject self) (VObject (number n))))).
    { rewrite primary_eq, self__op_inherited by assumption.
      rewrite Expression__op_int by (assumption || reflexivity).
      rewrite E. reflexivity. }
    repeat split; [assumption ..| |].
    + rewrite E'. symmetry. now apply Hexp.
    + rewrite E'. now eexists.
  - intros n Hn.
    rewrite primary_eq, self__op_inherited by assumption.
    rewrite Expression__op_int by (assumption || reflexivity).
    rewrite SymbolicNum___init___int.
    destruct (Z.leb_spec 0 n); [lia | reflexivity].
Qed.

Lemma combinator_builds_compound_witness :
  (cls (symbol "a") = SymbolicVar_ \/ cls (symbol "a") = CompoundExpression_)
  /\ exists num, SymbolicNum___init__ (VInt 5) = Ok num
       /\ Expression___add__ (symbol "a") (VInt 5)
          = Ok (VObject (compound Operator.add (VObject (symbol "a")) (VObject num)))
       /\ Expression___add__ (symbol "a") (VInt 5)
          = Expression___add__ (symbol "a") (VObject num)
       /\ returns_compound Operator.add (Expression___add__ (symbol "a") (VInt 5)).
Proof.
  split; [left; reflexivity|].
  apply (combinator_builds_compound (symbol "a") Operator.add
           (or_introl eq_refl)).
  lia.
Defined.

(** C1, as stated, fails: [SymbolicVar("a") + (-1)] raises and returns no
    [CompoundExpression]. *)
Lemma add_negative_integer_raises :
  SymbolicVar___init__ (VStr (lit "a")) = Ok (symbol "a")
  /\ Expression___add__ (symbol "a") (VInt (-1)) = Raise InvalidConstant
  /\ ~ returns_compound Operator.add
         (Expression___add__ (symbol "a") (VInt (-1))).
Proof.
  repeat split; try reflexivity.
  intros (c & E & _). discriminate E.
Qed.

(** On a [SymbolicNum] receiver every combinator returns [None]: the override
    [SymbolicNum._op] is an empty body.  The docstring of [Expression._op]
    announces [SymbolicNum(5) * SymbolicVar("a")] as a way to write
    [5 * SymbolicVar("a")]. *)
Lemma SymbolicNum_receiver_returns_None (self : object) (other : value)
    (op : Operator) :
  cls self = SymbolicNum_ ->
  primary op self other = Ok VNone /\ reflected op self other = Ok VNone.
Proof.
  intros H. rewrite primary_eq, reflected_eq.
  now rewrite !self__op_SymbolicNum.
Qed.

Example SymbolicNum_times_symbol :
  infix Operator.mul (VObject (number 5)) (VObject (symbol "a")) = Some (Ok VNone)
  /\ infix Operator.mul (VInt 5) (VObject (symbol "a"))
     = Some (Ok (VObject (compound Operator.mul (VObject (number 5))
                            (VObject (symbol "a"))))).
Proof. split; reflexivity. Qed.

(** C2 (as amended).  The unimplemented operations are empty bodies: equality
    of two expressions, [assoc_left], [assoc_right] and [specialize] return
    [None] without raising, and the two rotations leave their receiver as it
    was. *)
Theorem stubs_return_None (self : object) (other : value) :
  Expression___eq__ self other = Ok VNone
  /\ CompoundExpression_assoc_left self = (Ok VNone, self)
  /\ CompoundExpression_assoc_right self = (Ok VNone, self)
  /\ SymbolicVar_specialize self other = Ok VNone.
Proof. repeat split. Qed.

(** C2, as stated, fails: [a == a], the two rotations of [(a + b)] and
    [a.specialize(3)] all return [None], which is no signal at all. *)
Lemma stubs_signal_nothing :
  ~ signals_not_implemented
      (Expression___eq__ (symbol "a") (VObject (symbol "a")))
  /\ ~ signals_not_implemented
         (fst (CompoundExpression_assoc_left
                 (compound Operator.add (VObject (symbol "a")) (VObject (symbol "b")))))
  /\ ~ signals_not_implemented
         (fst (CompoundExpression_assoc_right
                 (compound Operator.add (VObject (symbol "a")) (VObject (symbol "b")))))
  /\ ~ signals_not_implemented (SymbolicVar_specialize (symbol "a") (VInt 3)).
Proof. repeat split; intros []. Qed.

(** C3 (as amended).  The root of a leaf holds a [Node] of its own, without
    children, and that [Node] holds the raw value: the one-character name for
    a [SymbolicVar], the integer for a [SymbolicNum].  Both child slots of
    the root are empty. *)
Theorem leaf_root_holds_Node (raw : value) (o : object) :
  SymbolicVar___init__ raw = Ok o \/ SymbolicNum___init__ raw = Ok o ->
  exists node,
    val o = VObject node
    /\ cls node = Node_ /\ val node = raw
    /\ left node = VNone /\ right node = VNone
    /\ left o = VNone /\ right o = VNone
    /\ (SymbolicVar___init__ raw = Ok o ->
        exists c, raw = VStr [c] /\ spec_is_ascii_letter c = true)
    /\ (SymbolicNum___init__ raw = Ok o ->
        (exists n, raw = VInt n /\ 0 <= n) \/ (exists b, raw = VBool b)).
Proof.
  intros H.
  assert (E : o = leaf (cls o) raw).
  { destruct H as [E|E].
    - now apply SymbolicVar___init___Ok in E as (c & -> & _ & ->).
    - now apply SymbolicNum___init___Ok in E as (_ & ->). }
  exists (Node raw). rewrite E. repeat split.
  - intros E'. apply SymbolicVar___init___Ok in E' as (c & -> & Hc & _). eauto.
  - intros E'. now apply SymbolicNum___init___Ok in E' as (Hv & _).
Qed.

Lemma leaf_root_holds_Node_witness :
  (SymbolicVar___init__ (VStr (lit "a")) = Ok (symbol "a")
   \/ SymbolicNum___init__ (VStr (lit "a")) = Ok (symbol "a"))
  /\ exists node,
       val (symbol "a") = VObject node
       /\ cls node = Node_ /\ val node = VStr (lit "a")
       /\ left node = VNone /\ right node = VNone
       /\ left (symbol "a") = VNone /\ right (symbol "a") = VNone
       /\ (SymbolicVar___init__ (VStr (lit "a")) = Ok (symbol "a") ->
           exists c, VStr (lit "a") = VStr [c] /\ spec_is_ascii_letter c = true)
       /\ (SymbolicNum___init__ (VStr (lit "a")) = Ok (symbol "a") ->
           (exists n, VStr (lit "a") = VInt n /\ 0 <= n)
           \/ (exists b, VStr (lit "a") = VBool b)).
Proof.
  split; [left; reflexivity|].
  apply (leaf_root_holds_Node (VStr (lit "a")) (symbol "a")).
  left; reflexivity.
Defined.

(** C3, as stated, fails: the roots of [SymbolicVar("a")] and of
    [SymbolicNum(7)] hold neither ["a"] nor [7]. *)
Lemma leaf_root_is_not_raw :
  SymbolicVar___init__ (VStr (lit "a")) = Ok (symbol "a")
  /\ val (symbol "a") <> VStr (lit "a")
  /\ SymbolicNum___init__ (VInt 7) = Ok (number 7)
  /\ val (number 7) <> VInt 7.
Proof. repeat split; discriminate. Qed.

(** C4.  For constructed expressions [A] and [B] and an operator [op],
    [CompoundExpression(op, A, B)] renders as
    ["(" + render(A) + " " + glyph(op) + " " + render(B) + ")"], the glyph
    being what [Operator.__str__] returns; a leaf renders without
    parentheses. *)
Theorem render_compound (A B : object) (op : Operator) :
  constructed A -> constructed B ->
  exists c rA rB,
    CompoundExpression___init__ op (VObject A) (VObject B) = Ok c
    /\ py_str (VObject A) = Ok rA /\ py_str (VObject B) = Ok rB
    /\ Operator___str__ op = Ok (spec_glyph op)
    /\ py_str (VObject c)
       = Ok (lit "(" ++ rA ++ lit " " ++ spec_glyph op ++ lit " " ++ rB ++ lit ")")
    /\ (cls A <> CompoundExpression_ -> no_parentheses rA)
    /\ (cls B <> CompoundExpression_ -> no_parentheses rB).
Proof.
  intros HA HB.
  apply constructed_expression_tree in HA, HB.
  destruct (expression_tree_py_str A HA) as (rA & EA & Hne).
  destruct (expression_tree_py_str B HB) as (rB & EB & _).
  exists (compound op (VObject A) (VObject B)), rA, rB.
  repeat split; try assumption.
  - apply CompoundExpression___init___Expression;
      now apply expression_tree_isinstance.
  - now destruct op.
  - now apply py_str_compound.
  - intros H. now apply (leaf_no_parentheses A).
  - intros H. now apply (leaf_no_parentheses B).
Qed.

Lemma render_compound_witness :
  (constructed (symbol "a") /\ constructed (number 10))
  /\ exists c rA rB,
       CompoundExpression___init__ Operator.mul (VObject (symbol "a"))
         (VObject (number 10)) = Ok c
       /\ py_str (VObject (symbol "a")) = Ok rA
       /\ py_str (VObject (number 10)) = Ok rB
       /\ Operator___str__ Operator.mul = Ok (spec_glyph Operator.mul)
       /\ py_str (VObject c)
          = Ok (lit "(" ++ rA ++ lit " " ++ spec_glyph Operator.mul ++ lit " "
                  ++ rB ++ lit ")")
       /\ (cls (symbol "a") <> CompoundExpression_ -> no_parentheses rA)
       /\ (cls (number 10) <> CompoundExpression_ -> no_parentheses rB).
Proof.
  assert (Ha : constructed (symbol "a"))
    by (apply (constructed_SymbolicVar (VStr (lit "a"))); reflexivity).
  assert (Hn : constructed (number 10))
    by (apply (constructed_SymbolicNum (VInt 10)); reflexivity).
  split; [split; assumption|].
  apply (render_compound (symbol "a") (number 10) Operator.mul Ha Hn).
Defined.

(** C5.  [commute] swaps the two children; calling it twice gives back the
    receiver, children and rendering included. *)
Theorem commute_involutive (self : object) :
  let once := snd (CompoundExpression_commute self) in
  let twice := snd (CompoundExpression_commute once) in
  fst (CompoundExpression_commute self) = Ok VNone
  /\ fst (CompoundExpression_commute once) = Ok VNone
  /\ left once = right self /\ right once = left self
  /\ left twice = left self /\ right twice = right self
  /\ twice = self
  /\ py_str (VObject twice) = py_str (VObject self).
Proof. destruct self. repeat split. Qed.

(** C6.  On a string, [SymbolicVar] succeeds exactly when the string is one
    code point that is an ASCII letter; the expression then renders as that
    string.  On every other string it raises the [ValueError] with the
    message "Symbol name must be an upper or lower-case string of length 1.". *)
Theorem SymbolicVar_on_strings (s : str) :
  (spec_is_symbol_name s = true <-> exists o, SymbolicVar___init__ (VStr s) = Ok o)
  /\ (forall o, SymbolicVar___init__ (VStr s) = Ok o -> py_str (VObject o) = Ok s)
  /\ (spec_is_symbol_name s = false ->
      SymbolicVar___init__ (VStr s) = Raise InvalidSymbol)
  /\ (spec_is_symbol_name s = true <->
      exists c, s = [c] /\ spec_is_ascii_letter c = true).
Proof.
  rewrite SymbolicVar___init___str. repeat split.
  - intros ->. eauto.
  - intros (o & E). destruct (spec_is_symbol_name s); [reflexivity | discriminate].
  - intros o E. destruct (spec_is_symbol_name s); [|discriminate].
    injection E as <-. now apply py_str_leaf.
  - intros ->. reflexivity.
  - destruct s as [|c [|c' s]]; try discriminate. eauto.
  - intros (c & -> & Hc). exact Hc.
Qed.

Example SymbolicVar_docstring :
  SymbolicVar___init__ (VStr (lit "a")) = Ok (symbol "a")
  /\ py_str (VObject (symbol "a")) = Ok (lit "a")
  /\ SymbolicVar___init__ (VStr (lit "abc")) = Raise InvalidSymbol
  /\ SymbolicVar___init__ (VStr (lit "")) = Raise InvalidSymbol
  /\ SymbolicVar___init__ (VStr (lit "1")) = Raise InvalidSymbol
  /\ SymbolicVar___init__ (VStr [0xE9%N]) = Raise InvalidSymbol.
Proof. repeat split. Qed.

(** C7.  For [n >= 0], [SymbolicNum(n)] succeeds and renders as the decimal
    numeral of [n]; for [n < 0] it raises the [ValueError] with the message
    "Constant must be a non-negative integer.". *)
Theorem SymbolicNum_on_integers (n : Z) :
  (0 <= n ->
   exists o s, SymbolicNum___init__ (VInt n) = Ok o
               /\ py_str (VObject o) = Ok s /\ spec_decimal_digits s n)
  /\ (n < 0 -> SymbolicNum___init__ (VInt n) = Raise InvalidConstant).
Proof.
  rewrite SymbolicNum___init___int. split; intros Hn.
  - destruct (Z.leb_spec 0 n); [|lia].
    exists (number n), (digits (Z.to_N n)). repeat split; try apply digits_spec;
      try assumption.
    unfold number. rewrite py_str_leaf by discriminate. cbn [py_str].
    now rewrite int___str___nonneg.
  - destruct (Z.leb_spec 0 n); [lia | reflexivity].
Qed.

Example SymbolicNum_1203 :
  py_str (VObject (number 1203)) = Ok (lit "1203")
  /\ spec_decimal_digits (lit "1203") 1203.
Proof.
  split; [reflexivity|]. apply (digits_spec 1203). lia.
Qed.



(** [5 + symbol] renders as ["(5 + <symbol>)"], [symbol + 5] as
    ["(<symbol> + 5)"], and the two differ. *)
Lemma five_plus_symbol (c : N) :
  spec_is_ascii_letter c = true ->
  exists sym l r,
    SymbolicVar___init__ (VStr [c]) = Ok sym
    /\ infix Operator.add (VInt 5) (VObject sym) = Some (Ok l)
    /\ infix Operator.add (VObject sym) (VInt 5) = Some (Ok r)
    /\ py_str l = Ok (lit "(5 + " ++ [c] ++ lit ")")
    /\ py_str r = Ok (lit "(" ++ [c] ++ lit " + 5)")
    /\ py_str l <> py_str r.
Proof.
  intros Hc.
  exists (leaf SymbolicVar_ (VStr [c])). do 2 eexists.
  split.
  { rewrite SymbolicVar___init___str. simpl. now rewrite Hc. }
  repeat split; try reflexivity.
  intros [= E]. rewrite <- E in Hc. discriminate Hc.
Qed.

(** C9.  A value without [len()] makes [SymbolicVar] fail inside [len], with
    the [TypeError] of the builtin: the length is asked before the type.  A
    list, sized and not a string, reaches the [else] branch and gets the
    [ValueError] of the constructor, whatever its length. *)
Theorem SymbolicVar_on_non_strings (v : value) :
  (unsized v = true ->
   len v = Raise (TypeError (lit "object of type '" ++ type_name v
                               ++ lit "' has no len()"))
   /\ SymbolicVar___init__ v
      = Raise (TypeError (lit "object of type '" ++ type_name v
                            ++ lit "' has no len()")))
  /\ (forall x, SymbolicVar___init__ (VList [x]) = Raise InvalidSymbol)
  /\ (forall l, SymbolicVar___init__ (VList l) = Raise InvalidSymbol).
Proof.
  repeat split.
  - destruct v; try discriminate; reflexivity.
  - destruct v; try discriminate; reflexivity.
  - intros l. unfold SymbolicVar___init__, len, and_then, mbind, result_bind.
    destruct (Z.of_nat (length l) =? 1); reflexivity.
Qed.

Example SymbolicVar_of_5 :
  SymbolicVar___init__ (VInt 5)
  = Raise (TypeError (lit "object of type 'int' has no len()")).
Proof. reflexivity. Qed.

(** Booleans where they are accepted: [SymbolicNum(True)] succeeds and
    renders as ["True"]; [Expression._op] promotes a [bool] operand to a
    [SymbolicNum] like it does an [int], which is what the combinators of a
    receiver that inherits [_op] return. *)
Lemma bool_is_an_int (b : bool) :
  exists num,
    SymbolicNum___init__ (VBool b) = Ok num
    /\ py_str (VObject num) = Ok (if b then lit "True" else lit "False")
    /\ (forall self op right,
          isinstance_Expression (VObject self) = true ->
          Expression__op self (VBool b) op right
          = Ok (VObject (combine op right (VObject self) (VObject num))))
    /\ (forall self op,
          inherits__op self = true ->
          primary op self (VBool b)
          = Ok (VObject (compound op (VObject self) (VObject num)))
          /\ reflected op self (VBool b)
             = Ok (VObject (compound op (VObject num) (VObject self)))).
Proof.
  exists (leaf SymbolicNum_ (VBool b)).
  assert (E : SymbolicNum___init__ (VBool b) = Ok (leaf SymbolicNum_ (VBool b)))
    by apply SymbolicNum___init___bool.
  assert (Hop : forall self op right,
            isinstance_Expression (VObject self) = true ->
            Expression__op self (VBool b) op right
            = Ok (VObject (combine op right (VObject self)
                             (VObject (leaf SymbolicNum_ (VBool b)))))).
  { intros self op right Hs.
    rewrite Expression__op_int by (assumption || reflexivity).
    rewrite E. reflexivity. }
  repeat split; try assumption.
  - rewrite primary_eq, self__op_inherited by assumption.
    now rewrite Hop by now apply inherits__op_isinstance.
  - rewrite reflected_eq, self__op_inherited by assumption.
    now rewrite Hop by now apply inherits__op_isinstance.
Qed.

(** C10 (defect of the code).  [SymbolicNum] accepts a [bool], and
    [Expression._op] would promote a [bool] operand whoever the receiver is;
    but the combinators of a [SymbolicNum] reach the empty
    [SymbolicNum._op] instead: [SymbolicNum(2) + True] and
    [True + SymbolicNum(2)] evaluate to [None], for every operator and both
    booleans.  The operand is neither promoted nor combined. *)
Theorem bool_operand_on_SymbolicNum_receiver (b : bool) (op : Operator) :
  SymbolicNum___init__ (VInt 2) = Ok (number 2)
  /\ SymbolicNum___init__ (VBool b) = Ok (leaf SymbolicNum_ (VBool b))
  /\ infix op (VObject (number 2)) (VBool b) = Some (primary op (number 2) (VBool b))
  /\ infix op (VBool b) (VObject (number 2)) = Some (reflected op (number 2) (VBool b))
  /\ primary op (number 2) (VBool b) = Ok VNone
  /\ reflected op (number 2) (VBool b) = Ok VNone
  /\ ~ returns_compound op (primary op (number 2) (VBool b))
  /\ ~ returns_compound op (reflected op (number 2) (VBool b))
  /\ Expression__op (number 2) (VBool b) op false
     = Ok (VObject (compound op (VObject (number 2))
                      (VObject (leaf SymbolicNum_ (VBool b)))))
  /\ Expression__op (number 2) (VBool b) op true
     = Ok (VObject (compound op (VObject (leaf SymbolicNum_ (VBool b)))
                      (VObject (number 2)))).
Proof.
  assert (Hp : primary op (number 2) (VBool b) = Ok VNone)
    by (rewrite primary_eq; now apply self__op_SymbolicNum).
  assert (Hr : reflected op (number 2) (VBool b) = Ok VNone)
    by (rewrite reflected_eq; now apply self__op_SymbolicNum).
  split; [reflexivity|]. split; [apply SymbolicNum___init___bool|].
  split; [reflexivity|]. split; [reflexivity|].
  split; [assumption|]. split; [assumption|].
  split; [rewrite Hp; intros (c & [=] & _)|].
  split; [rewrite Hr; intros (c & [=] & _)|].
  split; rewrite Expression__op_int by reflexivity;
    rewrite SymbolicNum___init___bool; reflexivity.
Qed.

Example symbol_plus_True :
  exists r, infix Operator.add (VObject (symbol "a")) (VBool true) = Some (Ok r)
            /\ py_str r = Ok (lit "(a + True)").
Proof. eexists. split; reflexivity. Qed.

(** ** The examples of the docstrings *)

(** [print(a + ten)] *)
Example module_docstring_1 :
  exists e,
    infix Operator.add (VObject (symbol "a")) (VObject (number 10)) = Some (Ok e)
    /\ py_str e = Ok (lit "(a + 10)").
Proof. eexists. split; reflexivity. Qed.

(** [expr1 = a + 1], [expr2 = 2 - b + 3*a], [print(expr1 - expr2)] *)
Example module_docstring_2 :
  exists expr1 d t expr2 e,
    infix Operator.add (VObject (symbol "a")) (VInt 1) = Some (Ok expr1)
    /\ infix Operator.sub (VInt 2) (VObject (symbol "b")) = Some (Ok d)
    /\ infix Operator.mul (VInt 3) (VObject (symbol "a")) = Some (Ok t)
    /\ infix Operator.add d t = Some (Ok expr2)
    /\ infix Operator.sub expr1 expr2 = Some (Ok e)
    /\ py_str e
       = Ok (lit "((a + 1) - ((2 - b) + (3 " ++ spec_glyph Operator.mul
               ++ lit " a)))").
Proof. do 5 eexists. repeat split; reflexivity. Qed.

(** [expr = 2 * (x+1) + 5*y + z], [print(expr)], [expr.commute()],
    [print(expr)] *)
Example module_docstring_3 :
  exists x1 t u s expr,
    infix Operator.add (VObject (symbol "x")) (VInt 1) = Some (Ok x1)
    /\ infix Operator.mul (VInt 2) x1 = Some (Ok t)
    /\ infix Operator.mul (VInt 5) (VObject (symbol "y")) = Some (Ok u)
    /\ infix Operator.add t u = Some (Ok s)
    /\ infix Operator.add s (VObject (symbol "z")) = Some (Ok (VObject expr))
    /\ py_str (VObject expr)
       = Ok (lit "(((2 " ++ spec_glyph Operator.mul ++ lit " (x + 1)) + (5 "
               ++ spec_glyph Operator.mul ++ lit " y)) + z)")
    /\ CompoundExpression_commute expr
       = (Ok VNone, compound Operator.add (VObject (symbol "z")) s)
    /\ py_str (VObject (snd (CompoundExpression_commute expr)))
       = Ok (lit "(z + ((2 " ++ spec_glyph Operator.mul ++ lit " (x + 1)) + (5 "
               ++ spec_glyph Operator.mul ++ lit " y)))").
Proof. do 5 eexists. repeat split; reflexivity. Qed.

(** [expr = a + b], [expr.commute()], [print(expr)] *)
Example commute_docstring :
  exists expr,
    infix Operator.add (VObject (symbol "a")) (VObject (symbol "b"))
    = Some (Ok (VObject expr))
    /\ py_str (VObject (snd (CompoundExpression_commute expr)))
       = Ok (lit "(b + a)").
Proof. eexists. split; reflexivity. Qed.

(** The constructor checks the class of the children only.  A direct instance
    of [Expression] holding the empty string renders as the empty string, and
    a compound of two of them falls into the leaf branch of [__str__]: the
    parenthesised shape is a property of constructed expressions. *)
Example render_of_bare_Expression :
  let bare := Node___init__ Expression_ (VStr []) VNone VNone in
  CompoundExpression___init__ Operator.add (VObject bare) (VObject bare)
  = Ok (compound Operator.add (VObject bare) (VObject bare))
  /\ py_str (VObject bare) = Ok []
  /\ py_str (VObject (compound Operator.add (VObject bare) (VObject bare)))
     = Ok (lit "+").
Proof. repeat split. Qed.

(** ** Further properties of the constructors and of the combinators *)

(** X1.  [CompoundExpression(op, left, right)] succeeds exactly when both
    children are instances of [Expression], and then stores the three
    arguments as they are; otherwise it raises the [TypeError] of the
    constructor.  A plain [int], a string and a bare [Node] are refused as
    children, on either side. *)
Theorem CompoundExpression_checks_children (op : Operator) (l r : value) :
  (isinstance_Expression l && isinstance_Expression r = true <->
   exists o, CompoundExpression___init__ op l r = Ok o)
  /\ (forall o, CompoundExpression___init__ op l r = Ok o ->
        cls o = CompoundExpression_ /\ val o = VOperator op
        /\ left o = l /\ right o = r)
  /\ (isinstance_Expression l && isinstance_Expression r = false ->
      CompoundExpression___init__ op l r
      = Raise (TypeError (lit "'left' and 'right' must be of type Expression.")))
  /\ (forall n s v,
        isinstance_Expression (VInt n) = false
        /\ isinstance_Expression (VStr s) = false
        /\ isinstance_Expression (VObject (Node v)) = false).
Proof.
  split; [split|split; [|split]].
  - intros H. apply andb_true_iff in H as [Hl Hr].
    rewrite CompoundExpression___init___Expression by assumption. eauto.
  - intros (o & E).
    apply CompoundExpression___init___Ok in E as (-> & -> & _). reflexivity.
  - intros o E. apply CompoundExpression___init___Ok in E as (_ & _ & ->).
    repeat split.
  - intros H. unfold CompoundExpression___init__.
    destruct (isinstance_Expression l), (isinstance_Expression r);
      try discriminate; reflexivity.
  - repeat split.
Qed.

(** The two outcomes of [SymbolicNum(val)]. *)
Lemma SymbolicNum___init___cases (v : value) :
  (SymbolicNum___init__ v = Ok (leaf SymbolicNum_ v)
   /\ ((exists n, v = VInt n /\ 0 <= n) \/ (exists b, v = VBool b)))
  \/ (SymbolicNum___init__ v = Raise InvalidConstant
      /\ ((exists n, v = VInt n /\ n < 0) \/ isinstance_int v = false)).
Proof.
  destruct v as [| |b|n|s|l|o|x]; try (right; split; [reflexivity | now right]).
  - left. split; [apply SymbolicNum___init___bool | eauto].
  - rewrite SymbolicNum___init___int. destruct (Z.leb_spec 0 n).
    + left. eauto.
    + right. eauto.
Qed.

(** X2.  [SymbolicNum(val)] has two outcomes only.  It succeeds on a
    non-negative [int] and on a [bool]; on everything else, a negative [int]
    or a value that is no [int] at all, it raises its own [ValueError]: the
    type test comes first and shields the comparison, so that no [TypeError]
    leaves the constructor. *)
Theorem SymbolicNum_outcomes (v : value) :
  (SymbolicNum___init__ v = Ok (leaf SymbolicNum_ v)
   /\ ((exists n, v = VInt n /\ 0 <= n) \/ (exists b, v = VBool b)))
  \/ (SymbolicNum___init__ v = Raise InvalidConstant
      /\ ((exists n, v = VInt n /\ n < 0) \/ isinstance_int v = false)).
Proof.
  destruct (SymbolicNum___init___cases v) as [H|H]; [left | right]; exact H.
Qed.

(** X3.  On a receiver that inherits [_op], a combinator answers
    [NotImplemented] exactly when the operand is neither an integer nor an
    [Expression]: a string, a list, [None], an [Operator], a bare [Node].
    This holds for the primary and for the reflected form. *)
Theorem foreign_operand_NotImplemented (self : object) (other : value)
    (op : Operator) :
  inherits__op self = true ->
  (foreign other = true <-> primary op self other = Ok VNotImplemented)
  /\ (foreign other = true <-> reflected op self other = Ok VNotImplemented).
Proof.
  intros Hi. pose proof (inherits__op_isinstance self Hi) as Hs.
  rewrite primary_eq, reflected_eq, !self__op_inherited by assumption.
  unfold foreign.
  assert (H : forall right,
             negb (isinstance_int other) && negb (isinstance_Expression other) = true
             <-> Expression__op self other op right = Ok VNotImplemented).
  { intros right.
    destruct (isinstance_int other) eqn:Hint.
    - rewrite Expression__op_int by assumption.
      destruct (SymbolicNum___init__ other); cbn; split; discriminate.
    - destruct (isinstance_Expression other) eqn:Hexp.
      + rewrite Expression__op_Expression by assumption.
        cbn; split; discriminate.
      + unfold Expression__op. rewrite Hint, Hexp. cbn. tauto. }
  split; apply H.
Qed.

Lemma foreign_operand_NotImplemented_witness :
  inherits__op (symbol "a") = true
  /\ (foreign (VStr (lit "b")) = true
      <-> Expression___add__ (symbol "a") (VStr (lit "b")) = Ok VNotImplemented)
  /\ (foreign (VStr (lit "b")) = true
      <-> Expression___radd__ (symbol "a") (VStr (lit "b")) = Ok VNotImplemented).
Proof.
  split; [reflexivity|].
  apply (foreign_operand_NotImplemented (symbol "a") (VStr (lit "b"))
           Operator.add).
  reflexivity.
Defined.

(** X4.  On a receiver that inherits [_op], the only exception a combinator
    lets out is the [ValueError] of [SymbolicNum], and it does so exactly on a
    negative [int] operand, whether the receiver is the left or the right
    operand. *)
Theorem combinator_raises_on_negative_only (self : object) (other : value)
    (op : Operator) (right : bool) (e : exception) :
  inherits__op self = true ->
  (self__op self other op right = Raise e
   <-> e = InvalidConstant /\ exists n, other = VInt n /\ n < 0).
Proof.
  intros Hi. pose proof (inherits__op_isinstance self Hi) as Hs.
  rewrite self__op_inherited by assumption.
  destruct (isinstance_int other) eqn:Hint.
  - rewrite Expression__op_int by assumption.
    destruct (SymbolicNum___init___cases other) as [(E & Hv)|(E & Hv)];
      rewrite E.
    + split; [discriminate|].
      intros (_ & n & -> & Hn).
      destruct Hv as [(m & [= <-] & Hm)|(b & [=])]. lia.
    + destruct Hv as [(n & -> & Hn)|Hno]; [|congruence].
      split; [intros [= <-] | intros (-> & _)]; eauto.
  - split.
    + unfold Expression__op. rewrite Hint.
      destruct (isinstance_Expression other) eqn:Hexp; [|discriminate].
      destruct right; cbn [negb];
        rewrite CompoundExpression___init___Expression by assumption;
        discriminate.
    + intros (_ & n & -> & _). discriminate Hint.
Qed.

Lemma combinator_raises_on_negative_only_witness :
  inherits__op (symbol "a") = true
  /\ (Expression___rsub__ (symbol "a") (VInt (-3)) = Raise InvalidConstant
      <-> InvalidConstant = InvalidConstant
          /\ exists n, VInt (-3) = VInt n /\ n < 0).
Proof.
  split; [reflexivity|].
  apply (combinator_raises_on_negative_only (symbol "a") (VInt (-3))
           Operator.sub true InvalidConstant).
  reflexivity.
Defined.


(** X5.  The combinators keep the expressions well formed: applied to a
    constructed expression and to an operand that is an integer or a
    constructed expression, whatever object a primary or reflected combinator
    returns is again a constructed expression, so that it renders. *)
Theorem combinators_keep_constructed (self : object) (other : value)
    (op : Operator) (right : bool) (c : object) :
  constructed self -> operand other ->
  self__op self other op right = Ok (VObject c) ->
  constructed c /\ exists s, py_str (VObject c) = Ok s /\ s <> [].
Proof.
  intros Hself Hother H.
  apply self__op_builds in H as (_ & H).
  apply Expression__op_builds in H as (p & Hp & _ & _ & ->).
  assert (Hc : exists po, p = VObject po /\ constructed po).
  { unfold promote in Hp. destruct (isinstance_int other) eqn:Hint.
    - destruct (SymbolicNum___init__ other) as [n|] eqn:E; [|discriminate].
      injection Hp as <-. exists n. split; [reflexivity|].
      now apply (constructed_SymbolicNum other).
    - injection Hp as <-.
      destruct Hother as [Hi|(o & -> & Ho)]; [congruence | eauto]. }
  destruct Hc as (po & -> & Hpo).
  assert (constructed (combine op right (VObject self) (VObject po))) as Hres.
  { unfold combine. destruct right.
    - apply (constructed_CompoundExpression op po self); try assumption.
      apply CompoundExpression___init___Expression;
        now apply expression_tree_isinstance, constructed_expression_tree.
    - apply (constructed_CompoundExpression op self po); try assumption.
      apply CompoundExpression___init___Expression;
        now apply expression_tree_isinstance, constructed_expression_tree. }
  split; [assumption|].
  now apply expression_tree_py_str, constructed_expression_tree.
Qed.

Lemma combinators_keep_constructed_witness :
  (constructed (symbol "a") /\ operand (VInt 2))
  /\ constructed (compound Operator.mul (VObject (number 2)) (VObject (symbol "a")))
  /\ exists s,
       py_str (VObject (compound Operator.mul (VObject (number 2))
                          (VObject (symbol "a")))) = Ok s
       /\ s <> [].
Proof.
  assert (Ha : constructed (symbol "a"))
    by (apply (constructed_SymbolicVar (VStr (lit "a"))); reflexivity).
  assert (Ho : operand (VInt 2)) by (left; reflexivity).
  split; [split; assumption|].
  apply (combinators_keep_constructed (symbol "a") (VInt 2) Operator.mul true
           _ Ha Ho).
  reflexivity.
Defined.

(** X6.  The two forms of a combinator agree: for receivers that inherit
    [_op], [x.__op__(y)] and [y.__rop__(x)] build the same tree, [x] on the
    left and [y] on the right. *)
Theorem primary_reflected_agree (x y : object) (op : Operator) :
  inherits__op x = true -> inherits__op y = true ->
  primary op x (VObject y) = reflected op y (VObject x)
  /\ primary op x (VObject y)
     = Ok (VObject (compound op (VObject x) (VObject y))).
Proof.
  intros Hx Hy.
  pose proof (inherits__op_isinstance x Hx).
  pose proof (inherits__op_isinstance y Hy).
  rewrite primary_eq, reflected_eq, !self__op_inherited by assumption.
  now rewrite !Expression__op_Expression by assumption.
Qed.

Lemma primary_reflected_agree_witness :
  (inherits__op (symbol "x") = true /\ inherits__op (symbol "y") = true)
  /\ Expression___truediv__ (symbol "x") (VObject (symbol "y"))
     = Expression___rtruediv__ (symbol "y") (VObject (symbol "x"))
  /\ Expression___truediv__ (symbol "x") (VObject (symbol "y"))
     = Ok (VObject (compound Operator.div (VObject (symbol "x"))
                      (VObject (symbol "y")))).
Proof.
  split; [split; reflexivity|].
  apply (primary_reflected_agree (symbol "x") (symbol "y") Operator.div);
    reflexivity.
Defined.

(** X7.  [commute] on the compound of two constructed expressions turns the
    rendering ["(A op B)"] into ["(B op A)"]: the operator and the class stay,
    the renderings of the children trade places. *)
Theorem commute_swaps_rendering (A B : object) (op : Operator) :
  constructed A -> constructed B ->
  exists rA rB,
    py_str (VObject A) = Ok rA /\ py_str (VObject B) = Ok rB
    /\ py_str (VObject (compound op (VObject A) (VObject B)))
       = Ok (lit "(" ++ rA ++ lit " " ++ spec_glyph op ++ lit " " ++ rB ++ lit ")")
    /\ py_str (VObject (snd (CompoundExpression_commute
                               (compound op (VObject A) (VObject B)))))
       = Ok (lit "(" ++ rB ++ lit " " ++ spec_glyph op ++ lit " " ++ rA ++ lit ")")
    /\ cls (snd (CompoundExpression_commute (compound op (VObject A) (VObject B))))
       = CompoundExpression_
    /\ val (snd (CompoundExpression_commute (compound op (VObject A) (VObject B))))
       = VOperator op.
Proof.
  intros HA HB. apply constructed_expression_tree in HA, HB.
  destruct (expression_tree_py_str A HA) as (rA & EA & HneA).
  destruct (expression_tree_py_str B HB) as (rB & EB & HneB).
  exists rA, rB. repeat split; try assumption.
  - now apply py_str_compound.
  - now apply (py_str_compound op B A).
Qed.

Lemma commute_swaps_rendering_witness :
  (constructed (symbol "a") /\ constructed (symbol "b"))
  /\ exists rA rB,
       py_str (VObject (symbol "a")) = Ok rA
       /\ py_str (VObject (symbol "b")) = Ok rB
       /\ py_str (VObject (compound Operator.sub (VObject (symbol "a"))
                             (VObject (symbol "b"))))
          = Ok (lit "(" ++ rA ++ lit " " ++ spec_glyph Operator.sub ++ lit " "
                  ++ rB ++ lit ")")
       /\ py_str (VObject (snd (CompoundExpression_commute
                                  (compound Operator.sub (VObject (symbol "a"))
                                     (VObject (symbol "b"))))))
          = Ok (lit "(" ++ rB ++ lit " " ++ spec_glyph Operator.sub ++ lit " "
                  ++ rA ++ lit ")")
       /\ cls (snd (CompoundExpression_commute
                      (compound Operator.sub (VObject (symbol "a"))
                         (VObject (symbol "b")))))
          = CompoundExpression_
       /\ val (snd (CompoundExpression_commute
                      (compound Operator.sub (VObject (symbol "a"))
                         (VObject (symbol "b")))))
          = VOperator Operator.sub.
Proof.
  assert (Ha : constructed (symbol "a"))
    by (apply (constructed_SymbolicVar (VStr (lit "a"))); reflexivity).
  assert (Hb : constructed (symbol "b"))
    by (apply (constructed_SymbolicVar (VStr (lit "b"))); reflexivity).
  split; [split; assumption|].
  apply (commute_swaps_rendering (symbol "a") (symbol "b") Operator.sub Ha Hb).
Defined.

(** X8.  The two predicates split the compound expressions in two: a
    constructed [CompoundExpression] holds an operator, [additive] answers
    [True] exactly for [+] and [-], [multiplicative] exactly for the other
    two, and [commute] changes neither answer. *)
Theorem additive_multiplicative_partition (self : object) :
  constructed self -> cls self = CompoundExpression_ ->
  exists op,
    val self = VOperator op
    /\ CompoundExpression_additive self = Ok (VBool (is_additive op))
    /\ CompoundExpression_multiplicative self = Ok (VBool (negb (is_additive op)))
    /\ CompoundExpression_additive (snd (CompoundExpression_commute self))
       = CompoundExpression_additive self
    /\ CompoundExpression_multiplicative (snd (CompoundExpression_commute self))
       = CompoundExpression_multiplicative self.
Proof.
  intros H Hc. apply constructed_expression_tree in H.
  destruct H as [c ?|v ?|op l r _ _]; try discriminate.
  exists op. destruct op; repeat split.
Qed.

Lemma additive_multiplicative_partition_witness :
  (constructed (compound Operator.sub (VObject (symbol "a")) (VObject (number 1)))
   /\ cls (compound Operator.sub (VObject (symbol "a")) (VObject (number 1)))
      = CompoundExpression_)
  /\ exists op,
       val (compound Operator.sub (VObject (symbol "a")) (VObject (number 1)))
       = VOperator op
       /\ CompoundExpression_additive
            (compound Operator.sub (VObject (symbol "a")) (VObject (number 1)))
          = Ok (VBool (is_additive op))
       /\ CompoundExpression_multiplicative
            (compound Operator.sub (VObject (symbol "a")) (VObject (number 1)))
          = Ok (VBool (negb (is_additive op)))
       /\ CompoundExpression_additive
            (snd (CompoundExpression_commute
                    (compound Operator.sub (VObject (symbol "a"))
                       (VObject (number 1)))))
          = CompoundExpression_additive
              (compound Operator.sub (VObject (symbol "a")) (VObject (number 1)))
       /\ CompoundExpression_multiplicative
            (snd (CompoundExpression_commute
                    (compound Operator.sub (VObject (symbol "a"))
                       (VObject (number 1)))))
          = CompoundExpression_multiplicative
              (compound Operator.sub (VObject (symbol "a")) (VObject (number 1))).
Proof.
  assert (H : constructed
                (compound Operator.sub (VObject (symbol "a")) (VObject (number 1)))).
  { apply (constructed_CompoundExpression Operator.sub (symbol "a") (number 1)).
    - apply (constructed_SymbolicVar (VStr (lit "a"))); reflexivity.
    - apply (constructed_SymbolicNum (VInt 1)); reflexivity.
    - reflexivity. }
  split; [split; [assumption | reflexivity]|].
  apply (additive_multiplicative_partition _ H). reflexivity.
Defined.

(** X9.  The predicates read the combinator that built the node: whatever
    object a primary or reflected combinator of operator [op] returns is
    additive exactly when [op] is [+] or [-] and multiplicative exactly when
    it is not, as in the docstrings: [10*a + b] is additive, [10 * (a+b)]
    is not. *)
Theorem combinator_result_family (self : object) (other : value)
    (op : Operator) (right : bool) (c : object) :
  self__op self other op right = Ok (VObject c) ->
  CompoundExpression_additive c = Ok (VBool (is_additive op))
  /\ CompoundExpression_multiplicative c = Ok (VBool (negb (is_additive op))).
Proof.
  intros H. apply self__op_builds in H as (_ & H).
  apply Expression__op_builds in H as (p & _ & _ & _ & ->).
  destruct right, op; split; reflexivity.
Qed.

Lemma combinator_result_family_witness :
  Expression___rmul__ (compound Operator.add (VObject (symbol "a"))
                         (VObject (symbol "b"))) (VInt 10)
  = Ok (VObject (compound Operator.mul (VObject (number 10))
                   (VObject (compound Operator.add (VObject (symbol "a"))
                               (VObject (symbol "b"))))))
  /\ CompoundExpression_additive
       (compound Operator.mul (VObject (number 10))
          (VObject (compound Operator.add (VObject (symbol "a"))
                      (VObject (symbol "b")))))
     = Ok (VBool (is_additive Operator.mul))
  /\ CompoundExpression_multiplicative
       (compound Operator.mul (VObject (number 10))
          (VObject (compound Operator.add (VObject (symbol "a"))
                      (VObject (symbol "b")))))
     = Ok (VBool (negb (is_additive Operator.mul))).
Proof.
  split; [reflexivity|].
  apply (combinator_result_family
           (compound Operator.add (VObject (symbol "a")) (VObject (symbol "b")))
           (VInt 10) Operator.mul true).
  reflexivity.
Defined.

(** X10.  A [SymbolicNum] cannot be combined from the left, nor with a plain
    integer from either side: [SymbolicNum._op] is found before
    [Expression._op] and its empty body makes the infix expression evaluate to
    [None], whatever [Expression] (another [SymbolicNum] included), [int] or
    [bool] stands on the right, and whatever [int] or [bool] stands on the
    left.  The same [SymbolicNum] on the right of an expression that inherits
    [_op] is combined as usual. *)
Theorem SymbolicNum_combines_from_the_right_only (n : object) (op : Operator) :
  constructed n -> cls n = SymbolicNum_ ->
  (forall y, isinstance_Expression y = true \/ isinstance_int y = true ->
     infix op (VObject n) y = Some (Ok VNone))
  /\ (forall m, constructed m -> cls m = SymbolicNum_ ->
        infix op (VObject n) (VObject m) = Some (Ok VNone))
  /\ (forall k, isinstance_int k = true ->
        infix op k (VObject n) = Some (Ok VNone))
  /\ (forall x, inherits__op x = true ->
        infix op (VObject x) (VObject n)
        = Some (Ok (VObject (compound op (VObject x) (VObject n))))).
Proof.
  intros Hn Hc.
  pose proof (expression_tree_isinstance n (constructed_expression_tree n Hn))
    as Hni.
  assert (Hleft : forall y,
            isinstance_Expression y = true \/ isinstance_int y = true ->
            infix op (VObject n) y = Some (Ok VNone)).
  { intros y Hy. unfold infix. rewrite Hni.
    assert (isinstance_int y || isinstance_Expression y = true) as ->
      by (destruct Hy as [-> | ->]; [apply orb_true_r | reflexivity]).
    cbn [andb]. rewrite primary_eq. now rewrite self__op_SymbolicNum. }
  split; [exact Hleft|]. split; [|split].
  - intros m Hm _. apply Hleft. left.
    now apply expression_tree_isinstance, constructed_expression_tree.
  - intros k Hk. unfold infix. rewrite Hni.
    destruct k; try discriminate;
      rewrite reflected_eq; now rewrite self__op_SymbolicNum.
  - intros x Hx. pose proof (inherits__op_isinstance x Hx) as Hxi.
    unfold infix. rewrite Hni, Hxi, orb_true_r. cbn [andb].
    rewrite primary_eq, self__op_inherited by assumption.
    now rewrite Expression__op_Expression by assumption.
Qed.

Lemma SymbolicNum_combines_from_the_right_only_witness :
  (constructed (number 2) /\ cls (number 2) = SymbolicNum_)
  /\ (forall y, isinstance_Expression y = true \/ isinstance_int y = true ->
        infix Operator.add (VObject (number 2)) y = Some (Ok VNone))
  /\ (forall m, constructed m -> cls m = SymbolicNum_ ->
        infix Operator.add (VObject (number 2)) (VObject m) = Some (Ok VNone))
  /\ (forall k, isinstance_int k = true ->
        infix Operator.add k (VObject (number 2)) = Some (Ok VNone))
  /\ (forall x, inherits__op x = true ->
        infix Operator.add (VObject x) (VObject (number 2))
        = Some (Ok (VObject (compound Operator.add (VObject x)
                               (VObject (number 2)))))).
Proof.
  assert (Hn : constructed (number 2))
    by (apply (constructed_SymbolicNum (VInt 2)); reflexivity).
  split; [split; [assumption | reflexivity]|].
  apply (SymbolicNum_combines_from_the_right_only (number 2) Operator.add Hn).
  reflexivity.
Defined.

Example SymbolicNum_plus_SymbolicNum :
  infix Operator.add (VObject (number 1)) (VObject (number 2)) = Some (Ok VNone)
  /\ infix Operator.add (VObject (symbol "x")) (VObject (number 2))
     = Some (Ok (VObject (compound Operator.add (VObject (symbol "x"))
                            (VObject (number 2))))).
Proof. split; reflexivity. Qed.

(** ** The rendering is unambiguous *)

Lemma spec_glyph_injective (op op' : Operator) :
  spec_glyph op = spec_glyph op' -> op = op'.
Proof. destruct op, op'; intros [=]; reflexivity. Qed.

Lemma spec_glyph_single (op : Operator) : exists g, spec_glyph op = [g].
Proof. destruct op; eexists; reflexivity. Qed.

(** Two runs of digits that stop at a character that is no digit. *)
Lemma digits_delimited (s1 s2 : str) (c1 c2 : N) (x y : str) :
  Forall is_digit s1 -> Forall is_digit s2 -> ~ is_digit c1 -> ~ is_digit c2 ->
  s1 ++ c1 :: x = s2 ++ c2 :: y -> s1 = s2 /\ c1 :: x = c2 :: y.
Proof.
  intros H1. revert s2. induction H1 as [|d s1 Hd _ IH]; intros s2 H2 Hc1 Hc2 E.
  - destruct H2 as [|d' s2 Hd' _]; [auto|].
    injection E as -> _. contradiction.
  - destruct H2 as [|d' s2 Hd' H2].
    + injection E as -> _. contradiction.
    + injection E as -> E. destruct (IH s2 H2 Hc1 Hc2 E) as (-> & ?). auto.
Qed.

(** The rendering of an expression, by the shape of the expression. *)
Lemma py_str_expression_tree (o : object) (s : str) :
  expression_tree o -> py_str (VObject o) = Ok s ->
  (exists c, o = leaf SymbolicVar_ (VStr [c])
             /\ spec_is_ascii_letter c = true /\ s = [c])
  \/ (exists n, o = leaf SymbolicNum_ (VInt n) /\ 0 <= n
                /\ s = digits (Z.to_N n))
  \/ (exists b, o = leaf SymbolicNum_ (VBool b) /\ s = bool___str__ b)
  \/ (exists op l r sl sr,
        o = compound op (VObject l) (VObject r)
        /\ expression_tree l /\ expression_tree r
        /\ py_str (VObject l) = Ok sl /\ py_str (VObject r) = Ok sr
        /\ s = lit "(" ++ sl ++ lit " " ++ spec_glyph op ++ lit " " ++ sr
               ++ lit ")").
Proof.
  destruct 1 as [c Hc|v Hv|op l r Hl Hr].
  - intros [= <-]. left. eauto.
  - rewrite py_str_leaf by discriminate.
    destruct Hv as [(n & -> & Hn)|(b & ->)]; cbn [py_str].
    + rewrite int___str___nonneg by assumption. intros [= <-].
      right; left. eauto.
    + intros [= <-]. right; right; left. eauto.
  - destruct (expression_tree_py_str l Hl) as (sl & El & Hne).
    destruct (expression_tree_py_str r Hr) as (sr & Er & _).
    rewrite (py_str_compound op l r sl sr) by assumption.
    intros [= <-]. right; right; right. eauto 12.
Qed.

Lemma ascii_letter_range (c : N) :
  spec_is_ascii_letter c = true -> (65 <= c <= 90 \/ 97 <= c <= 122)%N.
Proof.
  unfold spec_is_ascii_letter. ascii_codes.
  destruct (N.leb_spec 97 c), (N.leb_spec c 122),
    (N.leb_spec 65 c), (N.leb_spec c 90); simpl; try discriminate; lia.
Qed.

Lemma delimiter_codes (c : N) : is_delimiter c -> c = 32%N \/ c = 41%N.
Proof. unfold is_delimiter. ascii_codes. change (N_of_ascii " ") with 32%N. tauto. Qed.

Lemma digits_head (n : N) :
  exists d ds, digits n = d :: ds /\ is_digit d /\ Forall is_digit ds.
Proof.
  pose proof (digits_nonempty n) as Hne. pose proof (digits_are_digits n) as Hd.
  destruct (digits n) as [|d ds]; [congruence|].
  exists d, ds. inversion Hd; subst. auto.
Qed.

Lemma bool___str___codes (b : bool) :
  bool___str__ b = if b then [84; 114; 117; 101]%N else [70; 97; 108; 115; 101]%N.
Proof. destruct b; reflexivity. Qed.

Lemma compound_codes (sl g sr : str) :
  lit "(" ++ sl ++ lit " " ++ g ++ lit " " ++ sr ++ lit ")"
  = 40%N :: sl ++ 32%N :: g ++ 32%N :: sr ++ [41%N].
Proof. reflexivity. Qed.

Lemma compound_codes_app (sl sr rest : str) (g : N) :
  (lit "(" ++ sl ++ lit " " ++ [g] ++ lit " " ++ sr ++ lit ")") ++ rest
  = 40%N :: sl ++ 32%N :: g :: 32%N :: sr ++ 41%N :: rest.
Proof.
  change (lit "(") with [40%N]. change (lit " ") with [32%N].
  change (lit ")") with [41%N].
  cbn [app]. rewrite <- app_assoc. cbn [app]. rewrite <- app_assoc.
  reflexivity.
Qed.

Lemma py_str_delimited (o1 : object) :
  expression_tree o1 ->
  forall o2 s1 s2 c1 c2 x y,
    expression_tree o2 ->
    py_str (VObject o1) = Ok s1 -> py_str (VObject o2) = Ok s2 ->
    is_delimiter c1 -> is_delimiter c2 ->
    s1 ++ c1 :: x = s2 ++ c2 :: y ->
    o1 = o2 /\ c1 :: x = c2 :: y.
Proof.
  induction 1 as [c Hc|v Hv|op l r Hl IHl Hr IHr];
    intros o2 s1 s2 c1 c2 x y H2 E1 E2 D1 D2 E;
    apply delimiter_codes in D1, D2.
  - injection E1 as <-. apply ascii_letter_range in Hc.
    destruct (py_str_expression_tree o2 s2 H2 E2)
      as [(c' & -> & Hc' & ->)|[(n & -> & Hn & ->)|[(b & -> & ->)
          |(op & l & r & sl & sr & -> & _ & _ & _ & _ & ->)]]].
    + injection E as -> -> ->. auto.
    + destruct (digits_head (Z.to_N n)) as (d & ds & Ed & Hd & _).
      rewrite Ed in E. injection E as -> _. unfold is_digit in Hd. lia.
    + rewrite bool___str___codes in E.
      destruct b; injection E as _ E _; lia.
    + rewrite compound_codes in E. injection E as -> _. lia.
  - rewrite py_str_leaf in E1 by discriminate.
    destruct Hv as [(n & -> & Hn)|(b & ->)]; cbn [py_str] in E1.
    + rewrite int___str___nonneg in E1 by assumption. injection E1 as <-.
      destruct (py_str_expression_tree o2 s2 H2 E2)
        as [(c' & -> & Hc' & ->)|[(m & -> & Hm & ->)|[(b & -> & ->)
            |(op & l & r & sl & sr & -> & _ & _ & _ & _ & ->)]]].
      * apply ascii_letter_range in Hc'.
        destruct (digits_head (Z.to_N n)) as (d & ds & Ed & Hd & _).
        rewrite Ed in E. injection E as -> _. unfold is_digit in Hd. lia.
      * apply digits_delimited in E as (E & ?);
          try apply digits_are_digits; try (unfold is_digit; lia).
        split; [|assumption].
        apply (f_equal decimal_value) in E.
        rewrite !decimal_value_digits in E.
        assert (n = m) as -> by lia. reflexivity.
      * destruct (digits_head (Z.to_N n)) as (d & ds & Ed & Hd & _).
        rewrite Ed, bool___str___codes in E.
        destruct b; injection E as -> _; unfold is_digit in Hd; lia.
      * destruct (digits_head (Z.to_N n)) as (d & ds & Ed & Hd & _).
        rewrite Ed, compound_codes in E.
        injection E as -> _. unfold is_digit in Hd; lia.
    + injection E1 as <-. rewrite bool___str___codes in E.
      destruct (py_str_expression_tree o2 s2 H2 E2)
        as [(c' & -> & Hc' & ->)|[(m & -> & Hm & ->)|[(b' & -> & ->)
            |(op & l & r & sl & sr & -> & _ & _ & _ & _ & ->)]]].
      * destruct b; injection E as _ E _; lia.
      * destruct (digits_head (Z.to_N m)) as (d & ds & Ed & Hd & _).
        rewrite Ed in E.
        destruct b; injection E as <- _; unfold is_digit in Hd; lia.
      * rewrite bool___str___codes in E.
        destruct b, b'; try discriminate E.
        -- injection E as -> ->. auto.
        -- injection E as -> ->. auto.
      * rewrite compound_codes in E. destruct b; discriminate E.
  - destruct (expression_tree_py_str l Hl) as (sl & El & Hne).
    destruct (expression_tree_py_str r Hr) as (sr & Er & _).
    rewrite (py_str_compound op l r sl sr) in E1 by assumption.
    assert (s1 = lit "(" ++ sl ++ lit " " ++ spec_glyph op ++ lit " " ++ sr
                 ++ lit ")") as -> by congruence.
    clear E1.
    destruct (spec_glyph_single op) as (g & Eg). rewrite Eg, compound_codes_app in E.
    destruct (py_str_expression_tree o2 s2 H2 E2)
      as [(c' & -> & Hc' & ->)|[(m & -> & Hm & ->)|[(b' & -> & ->)
          |(op' & l' & r' & sl' & sr' & -> & Hl' & Hr' & El' & Er' & ->)]]].
    + apply ascii_letter_range in Hc'. injection E as <- _. lia.
    + destruct (digits_head (Z.to_N m)) as (d & ds & Ed & Hd & _).
      rewrite Ed in E. injection E as <- _. unfold is_digit in Hd. lia.
    + rewrite bool___str___codes in E. destruct b'; discriminate E.
    + destruct (spec_glyph_single op') as (g' & Eg').
      rewrite Eg', compound_codes_app in E. injection E as E.
      apply (IHl l' sl sl') in E as (<- & E);
        try assumption; try (left; reflexivity).
      injection E as <- E.
      apply (IHr r' sr sr') in E as (<- & E);
        try assumption; try (right; reflexivity).
      injection E as -> ->.
      rewrite <- Eg' in Eg. apply spec_glyph_injective in Eg as ->. auto.
Qed.

(** X11.  The rendering is unambiguous: two constructed expressions with the
    same rendering are the same tree, leaf for leaf and operator for operator.
    Every compound is parenthesised, so no grouping is lost. *)
Theorem py_str_injective (o1 o2 : object) :
  constructed o1 -> constructed o2 ->
  py_str (VObject o1) = py_str (VObject o2) -> o1 = o2.
Proof.
  intros H1 H2 E.
  apply constructed_expression_tree in H1, H2.
  destruct (expression_tree_py_str o1 H1) as (s & E1 & _).
  assert (E2 : py_str (VObject o2) = Ok s) by congruence.
  destruct (py_str_delimited o1 H1 o2 s s (N_of_ascii ")") (N_of_ascii ")")
              [] [] H2 E1 E2) as (? & _); auto; now right.
Qed.

Lemma py_str_injective_witness :
  (constructed (compound Operator.add (VObject (number 5)) (VObject (symbol "a")))
   /\ py_str (VObject (compound Operator.add (VObject (number 5))
                         (VObject (symbol "a"))))
      = py_str (VObject (compound Operator.add (VObject (number 5))
                           (VObject (symbol "a")))))
  /\ compound Operator.add (VObject (number 5)) (VObject (symbol "a"))
     = compound Operator.add (VObject (number 5)) (VObject (symbol "a")).
Proof.
  assert (H : constructed
                (compound Operator.add (VObject (number 5)) (VObject (symbol "a")))).
  { apply (constructed_CompoundExpression Operator.add (number 5) (symbol "a")).
    - apply (constructed_SymbolicNum (VInt 5)); reflexivity.
    - apply (constructed_SymbolicVar (VStr (lit "a"))); reflexivity.
    - reflexivity. }
  split; [split; [assumption | reflexivity]|].
  apply (py_str_injective _ _ H H). reflexivity.
Defined.

(** X12.  Rendering a constructed expression never raises and never gives the
    empty string, and the first character tells a compound from a leaf: the
    rendering of a [CompoundExpression] starts with ["("] and ends with [")"],
    the rendering of a leaf contains neither. *)
Theorem rendering_succeeds (o : object) :
  constructed o ->
  exists s,
    py_str (VObject o) = Ok s /\ s <> []
    /\ (cls o = CompoundExpression_ ->
        head s = Some (N_of_ascii "(") /\ last s = Some (N_of_ascii ")"))
    /\ (cls o <> CompoundExpression_ -> no_parentheses s).
Proof.
  intros H. apply constructed_expression_tree in H.
  destruct (expression_tree_py_str o H) as (s & E & Hne).
  exists s. repeat split; try assumption.
  - destruct (py_str_expression_tree o s H E)
      as [(c' & -> & _)|[(m & -> & _)|[(b' & -> & _)
          |(op & l & r & sl & sr & _ & _ & _ & _ & _ & ->)]]];
      try discriminate.
    reflexivity.
  - destruct (py_str_expression_tree o s H E)
      as [(c' & -> & _)|[(m & -> & _)|[(b' & -> & _)
          |(op & l & r & sl & sr & _ & _ & _ & _ & _ & ->)]]];
      try discriminate.
    rewrite !app_assoc. apply last_snoc.
  - intros Hc. now apply (leaf_no_parentheses o).
Qed.

Lemma rendering_succeeds_witness :
  constructed (symbol "q")
  /\ exists s,
       py_str (VObject (symbol "q")) = Ok s /\ s <> []
       /\ (cls (symbol "q") = CompoundExpression_ ->
           head s = Some (N_of_ascii "(") /\ last s = Some (N_of_ascii ")"))
       /\ (cls (symbol "q") <> CompoundExpression_ -> no_parentheses s).
Proof.
  assert (H : constructed (symbol "q"))
    by (apply (constructed_SymbolicVar (VStr (lit "q"))); reflexivity).
  split; [assumption|].
  apply (rendering_succeeds (symbol "q") H).
Defined.

(** X13.  [commute] changes what is printed unless there is nothing to swap:
    on the compound of two constructed expressions, the rendering after
    [commute] is the rendering before it exactly when the two children are
    the same expression. *)
Theorem commute_changes_rendering (A B : object) (op : Operator) :
  constructed A -> constructed B ->
  (py_str (VObject (snd (CompoundExpression_commute
                           (compound op (VObject A) (VObject B)))))
   = py_str (VObject (compound op (VObject A) (VObject B)))
   <-> A = B).
Proof.
  intros HA HB. split; [|now intros ->].
  intros E.
  assert (HAB : expression_tree (compound op (VObject A) (VObject B)))
    by (constructor; now apply constructed_expression_tree).
  assert (HBA : expression_tree (compound op (VObject B) (VObject A)))
    by (constructor; now apply constructed_expression_tree).
  destruct (expression_tree_py_str _ HAB) as (s & Es & _).
  change (py_str (VObject (compound op (VObject B) (VObject A)))
          = py_str (VObject (compound op (VObject A) (VObject B)))) in E.
  rewrite Es in E.
  destruct (py_str_delimited _ HBA _ s s (N_of_ascii ")") (N_of_ascii ")")
              [] [] HAB E Es) as (Eq & _); auto; try now right.
  now injection Eq.
Qed.

Lemma commute_changes_rendering_witness :
  (constructed (symbol "a") /\ constructed (symbol "a"))
  /\ (py_str (VObject (snd (CompoundExpression_commute
                              (compound Operator.div (VObject (symbol "a"))
                                 (VObject (symbol "a"))))))
      = py_str (VObject (compound Operator.div (VObject (symbol "a"))
                           (VObject (symbol "a"))))
      <-> symbol "a" = symbol "a").
Proof.
  assert (H : constructed (symbol "a"))
    by (apply (constructed_SymbolicVar (VStr (lit "a"))); reflexivity).
  split; [split; assumption|].
  apply (commute_changes_rendering (symbol "a") (symbol "a") Operator.div H H).
Defined.

Example commute_of_a_minus_b :
  py_str (VObject (compound Operator.sub (VObject (symbol "a")) (VObject (symbol "b"))))
  = Ok (lit "(a - b)")
  /\ py_str (VObject (snd (CompoundExpression_commute
                             (compound Operator.sub (VObject (symbol "a"))
                                (VObject (symbol "b"))))))
     = Ok (lit "(b - a)").
Proof. split; reflexivity. Qed.
